(** * Movie data explorer: extraction, cleaning and query layer

    A shallow embedding of [moviedata_final.py] (the class the page
    [app_final_1.py] imports) and of the guarded extractor and the validated
    height query of [moviedata.py], followed by the properties of the
    pipeline that the specification states. *)

From Stdlib Require Import ZArith QArith Ascii String List Lia Bool Sorted Permutation.
From stdpp Require Import gmap strings list fin_maps.
Import ListNotations.

Local Open Scope string_scope.
Local Open Scope list_scope.
Local Open Scope Z_scope.

(** ** Python values and outcomes *)

(** Exceptions the modelled code raises. *)
Inductive exn :=
| ValueError (msg : string)
| TypeError (msg : string)
| AttributeError (msg : string)
| ReError (msg : string)
| OSError (msg : string)
| Exception (msg : string).

(** A call either returns or raises. *)
Inductive result (A : Type) :=
| Ok (a : A)
| Raise (e : exn).
Arguments Ok {A} a.
Arguments Raise {A} e.

Definition is_ok {A} (r : result A) : bool :=
  match r with Ok _ => true | Raise _ => false end.

Definition is_ValueError {A} (r : result A) : bool :=
  match r with Raise (ValueError _) => true | _ => false end.

(** A dynamically typed argument, as far as [isinstance(N, int)] can tell
    values apart; [bool] is a subclass of [int]. *)
Inductive pyarg :=
| PInt (z : Z)
| PBool (b : bool)
| PFloat (q : Q)
| PStr (s : string)
| PNone.

Definition isinstance_int (a : pyarg) : bool :=
  match a with PInt _ | PBool _ => true | _ => false end.

(** [isinstance(x, (int, float))], with the number [x] then stands for. *)
Definition as_number (a : pyarg) : option Q :=
  match a with
  | PInt z => Some (inject_Z z)
  | PBool b => Some (if b then 1 # 1 else 0 # 1)
  | PFloat q => Some q
  | _ => None
  end.

Definition is_TypeError {A} (r : result A) : bool :=
  match r with Raise (TypeError _) => true | _ => false end.

(** ** [str] methods (ASCII text) *)

Module pystr.

Definition is_upper (c : ascii) : bool :=
  let n := N_of_ascii c in ((65 <=? n) && (n <=? 90))%N.

Definition lower_char (c : ascii) : ascii :=
  if is_upper c then ascii_of_N (N_of_ascii c + 32) else c.

(** [s.lower()] *)
Fixpoint lower (s : string) : string :=
  match s with
  | EmptyString => EmptyString
  | String c r => String (lower_char c) (lower r)
  end.

(** Characters [str.strip()] removes: tab to carriage return, the four
    separators 28 to 31, and the space. *)
Definition is_space (c : ascii) : bool :=
  let n := N_of_ascii c in
  (((9 <=? n) && (n <=? 13)) || ((28 <=? n) && (n <=? 32)))%N.

Fixpoint lstrip (s : string) : string :=
  match s with
  | EmptyString => EmptyString
  | String c r => if is_space c then lstrip r else s
  end.

(** Strip on the right: a suffix made of spaces only disappears. *)
Fixpoint rstrip (s : string) : string :=
  match s with
  | EmptyString => EmptyString
  | String c r =>
      match rstrip r with
      | EmptyString => if is_space c then EmptyString else String c EmptyString
      | r' => String c r'
      end
  end.

(** [s.strip()] *)
Definition strip (s : string) : string := rstrip (lstrip s).

(** [s.startswith(p)] *)
Fixpoint startswith (p s : string) : bool :=
  match p, s with
  | EmptyString, _ => true
  | String a p', String b s' => Ascii.eqb a b && startswith p' s'
  | String _ _, EmptyString => false
  end.

(** [s.endswith(p)] for a one-character [p]. *)
Fixpoint endswith_char (c : ascii) (s : string) : bool :=
  match s with
  | EmptyString => false
  | String a EmptyString => Ascii.eqb a c
  | String _ r => endswith_char c r
  end.

(** [p in s] *)
Fixpoint contains (p s : string) : bool :=
  startswith p s ||
  match s with
  | EmptyString => false
  | String _ r => contains p r
  end.

(** [sep.join(parts)] *)
Fixpoint join (sep : string) (parts : list string) : string :=
  match parts with
  | [] => EmptyString
  | [p] => p
  | p :: rest => p +:+ sep +:+ join sep rest
  end.

(** [s.split(sep)] for a non-empty [sep]: [acc] is the piece being read and
    [skip] counts the characters of a separator still to pass over. *)
Fixpoint split_go (sep s acc : string) (skip : nat) : list string :=
  match s with
  | EmptyString => [acc]
  | String c r =>
      match skip with
      | S k => split_go sep r acc k
      | O =>
          if startswith sep s
          then acc :: split_go sep r EmptyString (Nat.pred (String.length sep))
          else split_go sep r (acc +:+ String c EmptyString) O
      end
  end.

Definition split (sep s : string) : list string := split_go sep s EmptyString O.

End pystr.

(** ** [os.path] on POSIX *)

Module posixpath.

Definition isabs (p : string) : bool := pystr.startswith "/" p.

(** [os.path.join(a, b)] *)
Definition join (a b : string) : string :=
  if isabs b then b
  else if (String.eqb a "" || pystr.endswith_char "/" a)%bool then a +:+ b
  else a +:+ "/" +:+ b.

(** The loop of [normpath] over the components, [new_comps] kept
    reversed. *)
Fixpoint norm_comps (initial_slashes : nat) (comps new_comps : list string)
  : list string :=
  match comps with
  | [] => rev new_comps
  | comp :: rest =>
      if (String.eqb comp "" || String.eqb comp ".")%bool
      then norm_comps initial_slashes rest new_comps
      else if (negb (String.eqb comp "..")
               || ((initial_slashes =? 0)%nat && match new_comps with [] => true | _ => false end)
               || match new_comps with last :: _ => String.eqb last ".." | [] => false end)%bool
      then norm_comps initial_slashes rest (comp :: new_comps)
      else norm_comps initial_slashes rest (tail new_comps)
  end.

Fixpoint slashes (n : nat) : string :=
  match n with O => "" | S k => "/" +:+ slashes k end.

(** [os.path.normpath(path)] *)
Definition normpath (path : string) : string :=
  if String.eqb path "" then "."
  else
    let initial_slashes :=
      if pystr.startswith "/" path
      then if (pystr.startswith "//" path && negb (pystr.startswith "///" path))%bool
           then 2%nat else 1%nat
      else 0%nat in
    let comps := norm_comps initial_slashes (pystr.split "/" path) [] in
    let p := slashes initial_slashes +:+ pystr.join "/" comps in
    if String.eqb p "" then "." else p.

(** [os.path.abspath(path)] with the working directory [cwd]. *)
Definition abspath (cwd path : string) : string :=
  normpath (if isabs path then path else join cwd path).

(** Longest common leading run of characters of two strings. *)
Fixpoint common (s1 s2 : string) : string :=
  match s1, s2 with
  | String a r1, String b r2 =>
      if Ascii.eqb a b then String a (common r1 r2) else EmptyString
  | _, _ => EmptyString
  end.

Definition str_min (a b : string) : string := if String.leb a b then a else b.
Definition str_max (a b : string) : string := if String.leb a b then b else a.

(** [os.path.commonprefix(m)]: character by character, between the least
    and the greatest string of [m]. *)
Definition commonprefix (m : list string) : string :=
  match m with
  | [] => ""
  | x :: rest => common (fold_left str_min rest x) (fold_left str_max rest x)
  end.

End posixpath.

(** ** The file system and the archive *)

(** One entry of a tar archive. *)
Record TarInfo := {
  name : string;
  isdir : bool;
  data : string
}.

(** What a path holds: a directory, a plain file, or a gzip-compressed tar
    archive with its entries. Keys are absolute normalised paths. *)
Inductive node :=
| Dir
| File (content : string)
| TarGz (members : list TarInfo).

(** The part of the process environment the extractor touches. *)
Record World := {
  cwd : string;
  fs : gmap string node
}.

Module tarfile.

(** [/a], [/a/b], ... down to the absolute path itself. *)
Fixpoint prefixes_go (acc : string) (comps : list string) : list string :=
  match comps with
  | [] => []
  | c :: r => let d := acc +:+ "/" +:+ c in d :: prefixes_go d r
  end.

Definition dirs_of (p : string) : list string :=
  prefixes_go "" (List.filter (fun c => negb (String.eqb c "")) (pystr.split "/" p)).

(** [os.makedirs(p, exist_ok=True)] *)
Definition makedirs (m : gmap string node) (p : string) : gmap string node :=
  fold_left (fun m d => match m !! d with Some _ => m | None => <[d := Dir]> m end)
            (dirs_of p) m.

(** Extraction of one entry at [target]: the directories above it are
    created, then the entry itself. *)
Definition extract_member (w : World) (target : string) (t : TarInfo) : World :=
  let p := posixpath.abspath (cwd w) target in
  if isdir t then {| cwd := cwd w; fs := makedirs (fs w) p |}
  else {| cwd := cwd w;
          fs := <[p := File (data t)]> (makedirs (fs w) (posixpath.abspath (cwd w) (posixpath.join target ".."))) |}.

(** [tar.extractall(path)] as the guard of [safe_extract] assumes it:
    every entry goes to [os.path.join(path, member.name)], unfiltered. *)
Definition extractall (w : World) (path : string) (members : list TarInfo) : World :=
  fold_left (fun w t => extract_member w (posixpath.join path (name t)) t) members w.

(** [tarfile.open(file_path, "r:gz")] *)
Definition open (w : World) (file_path : string) : result (list TarInfo) :=
  match fs w !! posixpath.abspath (cwd w) file_path with
  | Some (TarGz ms) => Ok ms
  | Some _ => Raise (OSError "not a gzip file")
  | None => Raise (OSError "no such file")
  end.

End tarfile.

(** [Path.exists()] *)
Definition path_exists (w : World) (p : string) : bool :=
  match fs w !! posixpath.abspath (cwd w) p with Some _ => true | None => false end.

(** A resolved path stays within a directory when it is the directory or
    lies below it. *)
Definition within (dir p : string) : bool :=
  (String.eqb p dir || pystr.startswith (dir +:+ "/") p)%bool.

(** Paths both classes fix. *)
Definition download_dir : string := "downloads".
Definition extracted_dir : string := posixpath.join download_dir "MovieSummaries".

(** ** Library functions the pipeline calls

    [ast.literal_eval], [pd.to_datetime] and the regular-expression engine
    behind [Series.str.contains] are taken as an interface, with the facts
    about them that the development relies on. *)

Record Timestamp := {
  year : Z;
  month : Z;
  day : Z
}.

(** A pattern without metacharacters: letters, digits and spaces. *)
Definition plain_char (c : ascii) : bool :=
  let n := N_of_ascii c in
  (((48 <=? n) && (n <=? 57)) || ((65 <=? n) && (n <=? 90))
   || ((97 <=? n) && (n <=? 122)) || (n =? 32))%N.

Fixpoint is_plain (pat : string) : bool :=
  match pat with
  | EmptyString => true
  | String c r => plain_char c && is_plain r
  end.

(** Case-insensitive substring test. *)
Definition contains_nocase (pat s : string) : bool :=
  pystr.contains (pystr.lower pat) (pystr.lower s).

Class PyLib := {
  (** [list(ast.literal_eval(x).values())] with every value a [str], or
      [None] when any step of it raises. *)
  literal_eval_values : string -> option (list string);
  (** The empty text is no expression. *)
  literal_eval_values_empty : literal_eval_values "" = None;
  (** [pd.to_datetime(column, errors='coerce')] on a whole column, [None]
      for NaN on the way in and for [NaT] on the way out: what a cell gives
      may depend on the other cells of the column. *)
  to_datetime : list (option string) -> list (option Timestamp);
  (** The parsed column has a cell for every cell of the column. *)
  to_datetime_length : forall column, length (to_datetime column) = length column;
  (** [re.compile(pat, re.IGNORECASE)] as a search predicate, [None] when
      the pattern does not compile. *)
  re_compile_ignorecase : string -> option (string -> bool);
  (** A plain pattern compiles and searches for itself, ignoring case. *)
  re_compile_plain : forall pat, is_plain pat = true ->
    match re_compile_ignorecase pat with
    | Some m => forall s, m s = contains_nocase pat s
    | None => False
    end
}.

(** ** The two tables *)

Module movie.
Record row := {
  Wikipedia_movie_ID : Z;
  Freebase_movie_ID : option string;
  Movie_Name : option string;
  Movie_release_Date : option string;
  Movie_box_office_revenue : option Q;
  Movie_runtime : option Q;
  Movie_languages : option string;
  Movie_countries : option string;
  Movie_genres : option string
}.
End movie.

Module character.
Record row := {
  Wikipedia_movie_ID : Z;
  Freebase_movie_ID : option string;
  Movie_release_date : option string;
  Character_name : option string;
  Actor_date_of_birth : option string;
  Actor_Gender : option string;
  (** [read_csv] yields a float column, [None] standing for NaN. *)
  Actor_height : option Q;
  Actor_ethnicity : option string;
  Actor_name : option string;
  Actor_age_at_movie_release : option Q;
  Freebase_character_actor_map_ID : option string;
  Freebase_character_ID : option string;
  Freebase_actor_ID : option string
}.
End character.

(** The shared object: both tables, [None] until loaded. *)
Record MovieData := {
  movie_df : option (list movie.row);
  character_df : option (list character.row)
}.

(** ** Series and frame operations *)

Module pd.

(** [s.fillna(v)] on one cell. *)
Definition fillna {A} (v : A) (c : option A) : option A :=
  match c with Some x => Some x | None => Some v end.

(** [s.fillna(other)] on one cell, [other] being the cell of the same row. *)
Definition fillna_series {A} (other c : option A) : option A :=
  match c with Some x => Some x | None => other end.

Definition str_lower (c : option string) : option string :=
  option_map pystr.lower c.

Definition str_strip (c : option string) : option string :=
  option_map pystr.strip c.

Fixpoint dict_get (d : list (string * string)) (k : string) : option string :=
  match d with
  | [] => None
  | (k', v) :: r => if String.eqb k k' then Some v else dict_get r k
  end.

(** [s.map(d)] on one cell: a key outside [d] gives NaN. *)
Definition map_dict (d : list (string * string)) (c : option string) : option string :=
  match c with Some k => dict_get d k | None => None end.

(** [s.dropna()] *)
Fixpoint dropna {A} (s : list (option A)) : list A :=
  match s with
  | [] => []
  | Some x :: r => x :: dropna r
  | None :: r => dropna r
  end.

(** [s.str.split(sep).explode()] on a series without NaN. *)
Definition split_explode (sep : string) (s : list string) : list string :=
  flat_map (pystr.split sep) s.

(** One more row with key [k] in a size table sorted by key. *)
Fixpoint bump (k : Z) (acc : list (Z * Z)) : list (Z * Z) :=
  match acc with
  | [] => [(k, 1)]
  | (k', c) :: r =>
      if k <? k' then (k, 1) :: acc
      else if k =? k' then (k', c + 1) :: r
      else (k', c) :: bump k r
  end.

(** [df.groupby(key).size().reset_index(...)]: one row per key value, in
    increasing key order, with the number of rows carrying it. *)
Definition groupby_size (keys : list Z) : list (Z * Z) :=
  fold_left (fun acc k => bump k acc) keys [].

(** One more occurrence of [k], new values going last. *)
Fixpoint tally (k : string) (acc : list (string * Z)) : list (string * Z) :=
  match acc with
  | [] => [(k, 1)]
  | (k', c) :: r =>
      if String.eqb k k' then (k', c + 1) :: r else (k', c) :: tally k r
  end.

Fixpoint insert_desc (x : string * Z) (l : list (string * Z)) : list (string * Z) :=
  match l with
  | [] => [x]
  | y :: r => if snd x <? snd y then y :: insert_desc x r else x :: l
  end.

(** [s.value_counts()]: occurrences per value, largest first, equal
    counts in order of first occurrence. *)
Definition value_counts (s : list string) : list (string * Z) :=
  fold_right insert_desc [] (fold_left (fun acc k => tally k acc) s []).

(** [df.head(n)]: the first [n] rows, or all but the last [-n]. *)
Definition head {A} (n : Z) (l : list A) : list A :=
  if 0 <=? n then firstn (Z.to_nat n) l
  else firstn (length l - Z.to_nat (- n))%nat l.

(** [s.between(lo, hi)] on one cell, NaN comparing false. *)
Definition between (lo hi : Q) (c : option Q) : bool :=
  match c with
  | Some h => Qle_bool lo h && Qle_bool h hi
  | None => false
  end.

(** [s == v] on one string cell, NaN comparing false. *)
Definition eq_str (v : string) (c : option string) : bool :=
  match c with Some x => String.eqb x v | None => false end.

(** [df.dropna(subset=[c])] on rows paired with their cell of column [c]. *)
Fixpoint dropna_subset {A B} (df : list (A * option B)) : list (A * B) :=
  match df with
  | [] => []
  | (r, Some x) :: rest => (r, x) :: dropna_subset rest
  | (_, None) :: rest => dropna_subset rest
  end.

(** Whether a column of a frame with rows has the [.str] accessor: a column
    holding a text has dtype object; one whose cells are all missing has
    dtype float64, as [read_csv] types it and as the final [fillna] of the
    gender chain leaves it, and [.str] on it raises [AttributeError]. *)
Definition holds_text (column : list (option string)) : bool :=
  existsb (fun c => match c with Some _ => true | None => false end) column.

(** [s.head(n)] for a dynamically typed [n]: the slice [iloc[:n]] takes an
    integer or [None] and raises [TypeError] on anything else, a [bool]
    included. The message names the value and its type; for a float or a
    text, which the guard of [movie_type] never lets through, the value is
    left out. *)
Definition head_any {A} (n : pyarg) (l : list A) : result (list A) :=
  match n with
  | PInt z => Ok (head z l)
  | PNone => Ok l
  | PBool b =>
      Raise (TypeError ("cannot do positional indexing on Index with these indexers ["
                        +:+ (if b then "True" else "False") +:+ "] of type bool"))
  | PFloat _ =>
      Raise (TypeError "cannot do positional indexing on Index with these indexers of type float")
  | PStr _ =>
      Raise (TypeError "cannot do positional indexing on Index with these indexers of type str")
  end.

End pd.

(** ** The download *)

(** The body of a streamed response as [iter_content] hands it over: chunks,
    then the end of the body or a failure of the connection. *)
Inductive stream :=
| stream_end
| stream_chunk (chunk : string) (rest : stream)
| stream_error (e : exn).

(** What [requests.get(url, stream=True)] gives: an exception, or a response
    with its status and its body. *)
Inductive response :=
| request_failed (e : exn)
| Response (status_ok : bool) (body : stream).

Module io.

(** [open(file_path, "wb")]: the directory of the file must exist; the file
    is created, or emptied when it is there. *)
Definition open_wb (w : World) (file_path : string) : result World :=
  let p := posixpath.abspath (cwd w) file_path in
  match fs w !! posixpath.abspath (cwd w) (posixpath.join file_path "..") with
  | Some Dir =>
      match fs w !! p with
      | Some Dir => Raise (OSError "is a directory")
      | _ => Ok {| cwd := cwd w; fs := <[p := File ""]> (fs w) |}
      end
  | _ => Raise (OSError "no such directory")
  end.

(** The loop [for chunk in response.iter_content(...): if chunk:
    f.write(chunk)] on the file at the absolute path [p], which holds
    [written] so far. *)
Fixpoint write_chunks (w : World) (p written : string) (body : stream)
  : World * result unit :=
  match body with
  | stream_end => (w, Ok tt)
  | stream_error e => (w, Raise e)
  | stream_chunk chunk rest =>
      if String.eqb chunk "" then write_chunks w p written rest
      else write_chunks {| cwd := cwd w; fs := <[p := File (written +:+ chunk)]> (fs w) |}
                        p (written +:+ chunk) rest
  end.

End io.

(** ** [moviedata.py]: the guarded extractor and the validated height query *)

Module moviedata.

(** The loop of [safe_extract]: the first entry whose check fails raises. *)
Fixpoint check_members (w : World) (path : string) (members : list TarInfo)
  : result unit :=
  match members with
  | [] => Ok tt
  | member :: rest =>
      let member_path := posixpath.join path (name member) in
      if negb (String.eqb
                 (posixpath.commonprefix [posixpath.abspath (cwd w) path;
                                          posixpath.abspath (cwd w) member_path])
                 (posixpath.abspath (cwd w) path))
      then Raise (Exception "Attempted Path Traversal in Tar File")
      else check_members w path rest
  end.

Definition safe_extract (w : World) (tar : list TarInfo) (path : string)
  : World * result unit :=
  match check_members w path tar with
  | Raise e => (w, Raise e)
  | Ok _ => (tarfile.extractall w path tar, Ok tt)
  end.

Definition _extract_data (w : World) : World * result unit :=
  let file_path := posixpath.join download_dir "MovieSummaries.tar.gz" in
  if negb (path_exists w extracted_dir) then
    match tarfile.open w file_path with
    | Raise e => (w, Raise e)
    | Ok tar_ref => safe_extract w tar_ref download_dir
    end
  else (w, Ok tt).

(** [actor_distributions(self, gender, max_height, min_height)] for heights
    that are numbers: [.str.lower()] on the gender column comes first in
    the filter and raises [AttributeError] when the frame has rows and the
    column holds no text. *)
Definition actor_distributions (self : MovieData) (gender : string)
    (max_height min_height : Q) : result (list character.row) :=
  match character_df self with
  | None => Raise (ValueError "Data has not been loaded. Run setup() first.")
  | Some df =>
      if negb (String.eqb (pystr.lower gender) "m" || String.eqb (pystr.lower gender) "f")
      then Raise (ValueError "Gender must be 'm' or 'f'.")
      else if negb (Qle_bool min_height max_height)
      then Raise (ValueError "min_height must be less than max_height.")
      else
        match df with
        | [] => Ok []
        | _ =>
            if pd.holds_text (List.map character.Actor_Gender df)
            then Ok (List.filter
                       (fun r => pd.eq_str (pystr.lower gender)
                                   (pd.str_lower (character.Actor_Gender r))
                                 && pd.between min_height max_height
                                      (character.Actor_height r))
                       df)
            else Raise (AttributeError "Can only use .str accessor with string values!")
        end
  end.

(** The same call for heights of any type: after the check of the gender,
    [isinstance(..., (int, float))] on both heights, then the checks and
    the filter above. *)
Definition actor_distributions_any (self : MovieData) (gender : string)
    (max_height min_height : pyarg) : result (list character.row) :=
  match character_df self with
  | None => Raise (ValueError "Data has not been loaded. Run setup() first.")
  | Some _ =>
      if negb (String.eqb (pystr.lower gender) "m" || String.eqb (pystr.lower gender) "f")
      then Raise (ValueError "Gender must be 'm' or 'f'.")
      else
        match as_number min_height, as_number max_height with
        | Some lo, Some hi => actor_distributions self gender hi lo
        | _, _ => Raise (TypeError "Height values must be numeric.")
        end
  end.

End moviedata.
(** ** [moviedata_final.py] *)

Module moviedata_final.

(** [_extract_data]: the archive is unpacked as it is. *)
Definition _extract_data (w : World) : World * result unit :=
  let file_path := posixpath.join download_dir "MovieSummaries.tar.gz" in
  if negb (path_exists w extracted_dir) then
    match tarfile.open w file_path with
    | Raise e => (w, Raise e)
    | Ok tar_ref => (tarfile.extractall w download_dir tar_ref, Ok tt)
    end
  else (w, Ok tt).

(** [_download_data], [resp] being what the request gives when it is made:
    [raise_for_status()] comes before the file is opened, and an exception
    is logged and raised again. *)
Definition _download_data (w : World) (resp : response) : World * result unit :=
  let file_path := posixpath.join download_dir "MovieSummaries.tar.gz" in
  if negb (path_exists w file_path) then
    match resp with
    | request_failed e => (w, Raise e)
    | Response false _ => (w, Raise (OSError "HTTPError"))
    | Response true body =>
        match io.open_wb w file_path with
        | Raise e => (w, Raise e)
        | Ok w1 => io.write_chunks w1 (posixpath.abspath (cwd w1) file_path) "" body
        end
    end
  else (w, Ok tt).

(** The three columns [_clean_data] passes to [clean_column_values]. *)
Inductive category := Movie_genres | Movie_countries | Movie_languages.

Definition get_category (col : category) (r : movie.row) : option string :=
  match col with
  | Movie_genres => movie.Movie_genres r
  | Movie_countries => movie.Movie_countries r
  | Movie_languages => movie.Movie_languages r
  end.

Definition set_category (col : category) (v : option string) (r : movie.row) : movie.row :=
  {| movie.Wikipedia_movie_ID := movie.Wikipedia_movie_ID r;
     movie.Freebase_movie_ID := movie.Freebase_movie_ID r;
     movie.Movie_Name := movie.Movie_Name r;
     movie.Movie_release_Date := movie.Movie_release_Date r;
     movie.Movie_box_office_revenue := movie.Movie_box_office_revenue r;
     movie.Movie_runtime := movie.Movie_runtime r;
     movie.Movie_languages :=
       match col with Movie_languages => v | _ => movie.Movie_languages r end;
     movie.Movie_countries :=
       match col with Movie_countries => v | _ => movie.Movie_countries r end;
     movie.Movie_genres :=
       match col with Movie_genres => v | _ => movie.Movie_genres r end |}.

(** A character row with new gender and height cells. *)
Definition set_gender_height (g : option string) (h : option Q) (r : character.row)
  : character.row :=
  {| character.Wikipedia_movie_ID := character.Wikipedia_movie_ID r;
     character.Freebase_movie_ID := character.Freebase_movie_ID r;
     character.Movie_release_date := character.Movie_release_date r;
     character.Character_name := character.Character_name r;
     character.Actor_date_of_birth := character.Actor_date_of_birth r;
     character.Actor_Gender := g;
     character.Actor_height := h;
     character.Actor_ethnicity := character.Actor_ethnicity r;
     character.Actor_name := character.Actor_name r;
     character.Actor_age_at_movie_release := character.Actor_age_at_movie_release r;
     character.Freebase_character_actor_map_ID := character.Freebase_character_actor_map_ID r;
     character.Freebase_character_ID := character.Freebase_character_ID r;
     character.Freebase_actor_ID := character.Freebase_actor_ID r |}.

(** [pd.to_numeric(..., errors='coerce')] on the float column. *)
Definition to_numeric (c : option Q) : option Q := c.

(** [df.loc[df["Actor_height"] < 10, "Actor_height"] *= 100] on one cell. *)
Definition rescale_height (c : option Q) : option Q :=
  match c with
  | Some h => if negb (Qle_bool (10 # 1) h) then Some (h * (100 # 1))%Q else Some h
  | None => None
  end.

(** The gender chain of [_clean_data] and [actor_distributions] on one
    cell: [fillna("unknown")], [str.lower()], [str.strip()], [map], and
    [fillna] with the column as it was. *)
Definition normalize_gender (c : option string) : option string :=
  pd.fillna_series c
    (pd.map_dict [("m", "male"); ("f", "female")]
       (pd.str_strip (pd.str_lower (pd.fillna "unknown" c)))).

Definition has_height (r : character.row) : bool :=
  match character.Actor_height r with Some _ => true | None => false end.

Definition normalize_gender_column (df : list character.row) : list character.row :=
  List.map (fun r => set_gender_height (normalize_gender (character.Actor_Gender r))
                                       (character.Actor_height r) r) df.

(** The character half of [_clean_data]; [dropna(subset=['Actor_height'],
    inplace=True)] comes last. *)
Definition clean_character_df (df : list character.row) : list character.row :=
  List.filter has_height
    (normalize_gender_column
       (List.map (fun r => set_gender_height (character.Actor_Gender r)
                             (rescale_height (to_numeric (character.Actor_height r))) r) df)).

Section WithLibrary.
Context {L : PyLib}.

(** [safe_eval]: a cell that is no [str] falls out of the [try] and
    gives [None]. *)
Definition safe_eval (x : option string) : option string :=
  match x with
  | Some s =>
      match literal_eval_values s with
      | Some vs => Some (pystr.join ", " vs)
      | None => Some ""
      end
  | None => None
  end.

Definition clean_column_values (df : list movie.row) (column : category) : list movie.row :=
  List.map (fun r => set_category column (safe_eval (get_category column r)) r) df.

Definition clean_movie_df (df : list movie.row) : list movie.row :=
  clean_column_values
    (clean_column_values (clean_column_values df Movie_genres) Movie_countries)
    Movie_languages.

(** [_clean_data]: the tables are changed in place, the movie table
    first. *)
Definition _clean_data (self : MovieData) : MovieData * result unit :=
  match movie_df self with
  | None => (self, Raise (AttributeError "'NoneType' object has no attribute 'columns'"))
  | Some m =>
      let m' := clean_movie_df m in
      match character_df self with
      | None => ({| movie_df := Some m'; character_df := None |},
                 Raise (TypeError "'NoneType' object is not subscriptable"))
      | Some c => ({| movie_df := Some m'; character_df := Some (clean_character_df c) |},
                   Ok tt)
      end
  end.

(** The end of [__init__]: the loaded tables, cleaned. *)
Definition loaded (movies : list movie.row) (characters : list character.row) : MovieData :=
  {| movie_df := Some movies; character_df := Some characters |}.

Definition startup (movies : list movie.row) (characters : list character.row) : MovieData :=
  fst (_clean_data (loaded movies characters)).

(** The chain of [movie_type] up to [value_counts()]. *)
Definition genre_value_counts (df : list movie.row) : list (string * Z) :=
  pd.value_counts
    (List.map pystr.strip
       (pd.split_explode ", " (pd.dropna (List.map movie.Movie_genres df)))).

(** [movie_type(N)]: the guard lets every [int] through, a [bool] too,
    and [head] then takes [N] as it is. *)
Definition movie_type (self : MovieData) (N : pyarg) : result (list (string * Z)) :=
  if negb (isinstance_int N) then Raise (ValueError "N must be an integer.")
  else
    match movie_df self with
    | Some df => pd.head_any N (genre_value_counts df)
    | None => Ok []
    end.

(** The [Year] column of [releases], NaN as [None]: [pd.to_datetime] is
    given the whole release-date column. *)
Definition release_years (df : list movie.row) : list (option Z) :=
  List.map (option_map year) (to_datetime (List.map movie.Movie_release_Date df)).

(** [s.str.contains(genre, na=False, case=False)] on one cell, for a
    compiled pattern. *)
Definition str_contains (m : string -> bool) (c : option string) : bool :=
  match c with Some s => m s | None => false end.

(** [releases(genre)]; [None] and the empty text are both falsy. *)
Definition releases (self : MovieData) (genre : option string) : result (list (Z * Z)) :=
  match movie_df self with
  | None => Raise (ValueError "Movie data not loaded correctly.")
  | Some df0 =>
      let df := pd.dropna_subset (combine df0 (release_years df0)) in
      match genre with
      | None | Some "" => Ok (pd.groupby_size (List.map snd df))
      | Some g =>
          match re_compile_ignorecase g with
          | None => Raise (ReError g)
          | Some m =>
              Ok (pd.groupby_size
                    (List.map snd
                       (List.filter
                          (fun r => str_contains m (movie.Movie_genres (fst r))) df)))
          end
      end
  end.

(** [actor_count()] *)
Definition actor_count (self : MovieData) : list (Z * Z) :=
  match character_df self with
  | None | Some [] => []
  | Some df =>
      let actor_count_df := pd.groupby_size (List.map character.Wikipedia_movie_ID df) in
      pd.groupby_size (List.map snd actor_count_df)
  end.

(** The [Date] column of [ages]: [pd.to_datetime] is given the whole
    column of dates of birth. *)
Definition birth_dates (df : list character.row) : list (option Timestamp) :=
  to_datetime (List.map character.Actor_date_of_birth df).

(** [ages(unit)] *)
Definition ages (self : MovieData) (unit : string) : result (list (Z * Z)) :=
  match character_df self with
  | None => Raise (ValueError "Character data not loaded correctly.")
  | Some df =>
      if String.eqb unit "M"
      then Ok (pd.groupby_size (pd.dropna (List.map (option_map month) (birth_dates df))))
      else Ok (pd.groupby_size (pd.dropna (List.map (option_map year) (birth_dates df))))
  end.

(** [actor_distributions(gender, min_height, max_height)]: the gender
    column of the shared table is assigned again before filtering; for a
    gender other than "all", [.str.lower()] on the gender column raises
    [AttributeError] when the column holds no text. *)
Definition actor_distributions (self : MovieData) (gender : string)
    (min_height max_height : Q)
  : MovieData * result (list (option string * option Q)) :=
  match character_df self with
  | None | Some [] => (self, Ok [])
  | Some df0 =>
      let df := normalize_gender_column df0 in
      let self' := {| movie_df := movie_df self; character_df := Some df |} in
      let filtered_df :=
        List.filter
          (fun r => match character.Actor_height r with
                    | Some h => Qle_bool min_height h && Qle_bool h max_height
                    | None => false
                    end) df in
      let answer filtered_df :=
        match filtered_df with
        | [] => (self', Ok [])
        | _ => (self', Ok (List.map (fun r => (character.Actor_Gender r,
                                               character.Actor_height r)) filtered_df))
        end in
      if negb (String.eqb (pystr.lower gender) "all")
      then
        if pd.holds_text (List.map character.Actor_Gender df)
        then answer (List.filter
                       (fun r => pd.eq_str (pystr.lower gender)
                                   (pd.str_lower (character.Actor_Gender r))) filtered_df)
        else (self', Raise (AttributeError "Can only use .str accessor with string values!"))
      else answer filtered_df
  end.

(** The queries the page can issue, and what each returns. *)
Inductive call :=
| call_movie_type (N : pyarg)
| call_releases (genre : option string)
| call_actor_count
| call_ages (unit : string)
| call_actor_distributions (gender : string) (min_height max_height : Q).

Inductive answer :=
| genre_counts (rows : list (string * Z))
| year_counts (rows : list (Z * Z))
| actor_counts (rows : list (Z * Z))
| birth_counts (rows : list (Z * Z))
| heights (rows : list (option string * option Q)).

Definition lift {A} (f : A -> answer) (r : result A) : result answer :=
  match r with Ok a => Ok (f a) | Raise e => Raise e end.

Definition run (c : call) (self : MovieData) : MovieData * result answer :=
  match c with
  | call_movie_type N => (self, lift genre_counts (movie_type self N))
  | call_releases genre => (self, lift year_counts (releases self genre))
  | call_actor_count => (self, Ok (actor_counts (actor_count self)))
  | call_ages unit => (self, lift birth_counts (ages self unit))
  | call_actor_distributions gender lo hi =>
      let (self', r) := actor_distributions self gender lo hi in
      (self', lift heights r)
  end.

(** A session: the calls of the page one after the other on the shared
    object. *)
Definition run_all (cs : list call) (self : MovieData) : MovieData :=
  fold_left (fun s c => fst (run c s)) cs self.

End WithLibrary.

End moviedata_final.

(** ** [moviedata.py]: the statements after the class *)

Module moviedata_script.

Section WithLibrary.
Context {L : PyLib}.

(** The lambda of [clean_column_values]: nothing catches what
    [ast.literal_eval], [.values()] or [join] raise. *)
Definition eval_cell (x : option string) : result string :=
  match x with
  | Some s =>
      match literal_eval_values s with
      | Some vs => Ok (pystr.join ", " vs)
      | None => Raise (Exception "literal_eval")
      end
  | None => Ok ""
  end.

(** [df[column_name].apply(...)] and the assignment of the column: the
    first cell that raises ends the call. *)
Fixpoint clean_column_values (df : list movie.row) (column_name : moviedata_final.category)
  : result (list movie.row) :=
  match df with
  | [] => Ok []
  | r :: rest =>
      match eval_cell (moviedata_final.get_category column_name r) with
      | Raise e => Raise e
      | Ok v =>
          match clean_column_values rest column_name with
          | Raise e => Raise e
          | Ok rest' => Ok (moviedata_final.set_category column_name (Some v) r :: rest')
          end
      end
  end.

End WithLibrary.

(** [movie_type(self, N)]: [explode()] leaves a column of texts as it is,
    so whole cells are counted. *)
Definition movie_type (self : MovieData) (N : Z) : result (list (string * Z)) :=
  match movie_df self with
  | None => Raise (ValueError "Data has not been loaded. Run setup() first.")
  | Some df => Ok (pd.head N (pd.value_counts (pd.dropna (List.map movie.Movie_genres df))))
  end.

End moviedata_script.

(** ** A reference instance of the library interface

    It reads the serialisation the dataset uses (a dict display of quoted
    strings without escapes), dates written as year, year-month or
    year-month-day, and plain patterns. *)

Module reference.

Definition is_quote (c : ascii) : bool :=
  (Ascii.eqb c (ascii_of_N 34) || Ascii.eqb c "'")%bool.

(** The text up to the closing quote [q] and what follows it. *)
Fixpoint read_quoted (q : ascii) (s acc : string) : option (string * string) :=
  match s with
  | EmptyString => None
  | String c r =>
      if Ascii.eqb c q then Some (acc, r)
      else if Ascii.eqb c "\" then None
      else read_quoted q r (acc +:+ String c EmptyString)
  end.

Definition read_str (s : string) : option (string * string) :=
  match s with
  | String c r => if is_quote c then read_quoted c r EmptyString else None
  | EmptyString => None
  end.

(** [d[k] = v]: a key seen before keeps its place. *)
Fixpoint dict_set (d : list (string * string)) (k v : string) : list (string * string) :=
  match d with
  | [] => [(k, v)]
  | (k', v') :: r => if String.eqb k k' then (k', v) :: r else (k', v') :: dict_set r k v
  end.

Definition closes (s : string) : bool := String.eqb (pystr.strip s) "".

(** The items of a dict display, read after its opening brace. *)
Fixpoint read_items (fuel : nat) (s : string) (acc : list (string * string))
  : option (list (string * string)) :=
  match fuel with
  | O => None
  | S f =>
      match pystr.lstrip s with
      | String "}" r => if closes r then Some acc else None
      | s1 =>
          match read_str s1 with
          | None => None
          | Some (k, r1) =>
              match pystr.lstrip r1 with
              | String ":" r2 =>
                  match read_str (pystr.lstrip r2) with
                  | None => None
                  | Some (v, r3) =>
                      match pystr.lstrip r3 with
                      | String "," r4 => read_items f r4 (dict_set acc k v)
                      | String "}" r4 => if closes r4 then Some (dict_set acc k v) else None
                      | _ => None
                      end
                  end
              | _ => None
              end
          end
      end
  end.

Definition literal_eval_values (s : string) : option (list string) :=
  match pystr.lstrip s with
  | String "{" r => option_map (List.map snd) (read_items (S (String.length r)) r [])
  | _ => None
  end.

Definition digit (c : ascii) : option Z :=
  let n := N_of_ascii c in
  if ((48 <=? n) && (n <=? 57))%N then Some (Z.of_N n - 48) else None.

Fixpoint number (s : string) (acc : Z) : option Z :=
  match s with
  | EmptyString => Some acc
  | String c r => match digit c with Some d => number r (10 * acc + d) | None => None end
  end.

(** A text of exactly [n] digits as a number. *)
Definition digits (n : nat) (s : string) : option Z :=
  if (String.length s =? n)%nat then number s 0 else None.

Definition leap (y : Z) : bool :=
  ((y mod 4 =? 0) && negb (y mod 100 =? 0)) || (y mod 400 =? 0).

Definition days_in_month (y m : Z) : Z :=
  if m =? 2 then (if leap y then 29 else 28)
  else if (m =? 4) || (m =? 6) || (m =? 9) || (m =? 11) then 30
  else 31.

(** A day of the calendar, years 1 to 9999, as [datetime] has them. *)
Definition calendar_day (y m d : Z) : bool :=
  (1 <=? y) && (y <=? 9999) && (1 <=? m) && (m <=? 12)
  && (1 <=? d) && (d <=? days_in_month y m).

(** Midnight of the day lies within what a nanosecond timestamp holds: from
    1677-09-22 to 2262-04-11. *)
Definition in_bounds (y m d : Z) : bool :=
  let n := 10000 * y + 100 * m + d in
  (16770922 <=? n) && (n <=? 22620411).

(** The formats [%Y], [%Y-%m] and [%Y-%m-%d]. *)
Inductive date_format := fmt_Y | fmt_Ym | fmt_Ymd.

(** The year, month and day a text gives when it is written in a format,
    nothing before or after it, and names a day of the calendar. *)
Definition fields (f : date_format) (s : string) : option (Z * Z * Z) :=
  let day_of y m d := if calendar_day y m d then Some (y, m, d) else None in
  match f, pystr.split "-" s with
  | fmt_Y, [y] =>
      match digits 4 y with Some y => day_of y 1 1 | None => None end
  | fmt_Ym, [y; m] =>
      match digits 4 y, digits 2 m with
      | Some y, Some m => day_of y m 1
      | _, _ => None
      end
  | fmt_Ymd, [y; m; d] =>
      match digits 4 y, digits 2 m, digits 2 d with
      | Some y, Some m, Some d => day_of y m d
      | _, _, _ => None
      end
  | _, _ => None
  end.

(** One cell read with one format: [NaT] when the text is not in the
    format or the day is out of bounds. *)
Definition strptime (f : date_format) (s : string) : option Timestamp :=
  match fields f s with
  | Some (y, m, d) =>
      if in_bounds y m d then Some {| year := y; month := m; day := d |} else None
  | None => None
  end.

(** The format a text has, when it is a date in one of the three; the
    bounds play no part in the guess. *)
Definition guess_format (s : string) : option date_format :=
  match fields fmt_Ymd s, fields fmt_Ym s, fields fmt_Y s with
  | Some _, _, _ => Some fmt_Ymd
  | _, Some _, _ => Some fmt_Ym
  | _, _, Some _ => Some fmt_Y
  | _, _, _ => None
  end.

(** A cell read on its own, in whichever of the three formats it has. *)
Definition parse_alone (s : string) : option Timestamp :=
  match guess_format s with Some f => strptime f s | None => None end.

Fixpoint first_present (column : list (option string)) : option string :=
  match column with
  | [] => None
  | Some s :: _ => Some s
  | None :: rest => first_present rest
  end.

Definition on_cell (f : string -> option Timestamp) (c : option string) : option Timestamp :=
  match c with Some s => f s | None => None end.

(** [pd.to_datetime(column, errors='coerce')] as pandas 2 does it, on
    columns of dates in the three formats: the format is guessed from the
    first present cell and every cell is read with it, a cell in another
    format giving [NaT]; when no format is guessed from the first present
    cell, every cell is read on its own. A text in none of the three
    formats is read as [NaT]. *)
Definition to_datetime (column : list (option string)) : list (option Timestamp) :=
  match first_present column with
  | None => List.map (fun _ => None) column
  | Some s =>
      match guess_format s with
      | Some f => List.map (on_cell (strptime f)) column
      | None => List.map (on_cell parse_alone) column
      end
  end.

Definition re_compile_ignorecase (pat : string) : option (string -> bool) :=
  if is_plain pat then Some (contains_nocase pat) else None.

End reference.

#[global] Instance reference_lib : PyLib.
Proof.
  refine {| literal_eval_values := reference.literal_eval_values;
            to_datetime := reference.to_datetime;
            re_compile_ignorecase := reference.re_compile_ignorecase |}.
  - reflexivity.
  - intros column. unfold reference.to_datetime.
    destruct (reference.first_present column); [|apply List.length_map].
    destruct (reference.guess_format s); apply List.length_map.
  - intros pat H. unfold reference.re_compile_ignorecase. now rewrite H.
Defined.

(** ** Sample data *)

Definition genres_raw : string := "{'/m/01z4y': 'Comedy', '/m/07s9rl0': 'Drama'}".

Definition movie_row (id : Z) (date genres : option string) : movie.row :=
  {| movie.Wikipedia_movie_ID := id;
     movie.Freebase_movie_ID := None;
     movie.Movie_Name := None;
     movie.Movie_release_Date := date;
     movie.Movie_box_office_revenue := None;
     movie.Movie_runtime := None;
     movie.Movie_languages := Some "{}";
     movie.Movie_countries := Some "{}";
     movie.Movie_genres := genres |}.

Definition character_row (id : Z) (gender : option string) (height : option Q)
  : character.row :=
  {| character.Wikipedia_movie_ID := id;
     character.Freebase_movie_ID := None;
     character.Movie_release_date := None;
     character.Character_name := None;
     character.Actor_date_of_birth := Some "1970-05-17";
     character.Actor_Gender := gender;
     character.Actor_height := height;
     character.Actor_ethnicity := None;
     character.Actor_name := None;
     character.Actor_age_at_movie_release := None;
     character.Freebase_character_actor_map_ID := None;
     character.Freebase_character_ID := None;
     character.Freebase_actor_ID := None |}.

Definition sample_movies : list movie.row :=
  [ movie_row 1 (Some "2001-08-24") (Some genres_raw);
    movie_row 2 (Some "2001") (Some "{'/m/07s9rl0': 'Drama'}");
    movie_row 3 None (Some "{'/m/01z4y': 'Comedy'}");
    movie_row 4 (Some "1999-01") None ].

Definition sample_characters : list character.row :=
  [ character_row 1 (Some "M") (Some (178 # 100));
    character_row 1 (Some "F") (Some (165 # 1));
    character_row 2 (Some " M ") (Some (180 # 1));
    character_row 2 None (Some (170 # 1));
    character_row 3 (Some "F") None ].

(** A table whose release dates are written in two formats. *)
Definition mixed_dates : MovieData :=
  {| movie_df := Some [ movie_row 1 (Some "1999-08-24") (Some "Drama");
                        movie_row 2 (Some "2001") (Some "Comedy") ];
     character_df := Some [] |}.

(** The tables of a running page built from the samples. *)
Definition sample : MovieData := moviedata_final.startup sample_movies sample_characters.

(** An archive with one entry, stored where the extractor looks for it. *)
Definition world_with (entry : string) : World :=
  {| cwd := "/srv/app";
     fs := <["/srv/app/downloads/MovieSummaries.tar.gz" :=
               TarGz [ {| name := entry; isdir := false; data := "x" |} ]]>
           (<["/srv/app/downloads" := Dir]>
            (<["/srv/app" := Dir]> (<["/srv" := Dir]> ∅))) |}.

(** ** Row-wise view of the cleaner *)

(** What [_clean_data] does to one movie row and to one character row. *)
Definition clean_movie_row `{PyLib} (r : movie.row) : movie.row :=
  moviedata_final.set_category moviedata_final.Movie_languages
    (moviedata_final.safe_eval (movie.Movie_languages r))
    (moviedata_final.set_category moviedata_final.Movie_countries
       (moviedata_final.safe_eval (movie.Movie_countries r))
       (moviedata_final.set_category moviedata_final.Movie_genres
          (moviedata_final.safe_eval (movie.Movie_genres r)) r)).

Definition clean_character_row (r : character.row) : character.row :=
  moviedata_final.set_gender_height
    (moviedata_final.normalize_gender (character.Actor_Gender r))
    (moviedata_final.rescale_height (character.Actor_height r)) r.

(** The rows of the character table, none when it is not loaded. *)
Definition character_rows (self : MovieData) : list character.row :=
  match character_df self with Some df => df | None => [] end.

(** The height filter of [actor_distributions]. *)
Definition in_range (lo hi : Q) (r : character.row) : bool :=
  match character.Actor_height r with
  | Some h => Qle_bool lo h && Qle_bool h hi
  | None => false
  end.

Definition gender_height (r : character.row) : option string * option Q :=
  (character.Actor_Gender r, character.Actor_height r).

(** The gender column is a fixed point of the gender chain. *)
Definition gender_normal (self : MovieData) : Prop :=
  moviedata_final.normalize_gender_column (character_rows self) = character_rows self.

(** No height of the table lies below 0.1 (a tenth of the raw unit). *)
Definition heights_from_tenth (df : list character.row) : bool :=
  forallb (fun r => match character.Actor_height r with
                    | Some h => Qle_bool (1 # 10) h
                    | None => true
                    end) df.

(** The full ranking [movie_type] cuts with [head]. *)
Definition genre_ranking (self : MovieData) : list (string * Z) :=
  match movie_df self with
  | Some df => moviedata_final.genre_value_counts df
  | None => []
  end.

(** The genre test of [releases("Comedy")] on one row. *)
Definition is_comedy (r : movie.row) : bool :=
  match movie.Movie_genres r with
  | Some s => contains_nocase "Comedy" s
  | None => false
  end.

(** Number of rows of [l] carrying the key [k]. *)
Definition count (k : Z) (l : list Z) : Z := Z.of_nat (count_occ Z.eq_dec l k).

(** Count stored for the key [k] in a size table, 0 when absent. *)
Fixpoint size_of (k : Z) (t : list (Z * Z)) : Z :=
  match t with
  | [] => 0
  | (k', c) :: r => if k =? k' then c else size_of k r
  end.

Fixpoint total (t : list (Z * Z)) : Z :=
  match t with
  | [] => 0
  | (_, c) :: r => c + total r
  end.

(** ** Views used by the further properties *)

(** The archive file both classes download to. *)
Definition archive_path : string := posixpath.join download_dir "MovieSummaries.tar.gz".

(** A world with the download directory made and nothing in it, and a body
    that breaks after two chunks. *)
Definition empty_downloads : World :=
  {| cwd := "/srv/app"; fs := <["/srv/app/downloads" := Dir]> ∅ |}.

Definition broken_body : stream :=
  stream_chunk "ab" (stream_chunk "" (stream_chunk "c" (stream_error (OSError "reset")))).

(** What the chunks of a body add up to before its end or its failure. *)
Fixpoint received (body : stream) : string :=
  match body with
  | stream_chunk chunk rest => chunk +:+ received rest
  | _ => ""
  end.

(** How the body ends. *)
Fixpoint ending (body : stream) : result unit :=
  match body with
  | stream_end => Ok tt
  | stream_error e => Raise e
  | stream_chunk _ rest => ending rest
  end.

(** The test [safe_extract] amounts to: the absolute path of the entry
    starts, character by character, with the absolute target path. *)
Definition char_prefixed (w : World) (path : string) (member : TarInfo) : bool :=
  pystr.startswith (posixpath.abspath (cwd w) path)
                   (posixpath.abspath (cwd w) (posixpath.join path (name member))).

(** The rows of the movie table, none when it is not loaded. *)
Definition movie_rows (self : MovieData) : list movie.row :=
  match movie_df self with Some df => df | None => [] end.

(** A movie row without its three category cells, a character row without
    its gender cell, and one without its gender and height cells. *)
Definition without_categories (r : movie.row) : movie.row :=
  moviedata_final.set_category moviedata_final.Movie_languages None
    (moviedata_final.set_category moviedata_final.Movie_countries None
       (moviedata_final.set_category moviedata_final.Movie_genres None r)).

Definition without_gender (r : character.row) : character.row :=
  moviedata_final.set_gender_height None (character.Actor_height r) r.

Definition without_gender_height (r : character.row) : character.row :=
  moviedata_final.set_gender_height None None r.

(** The genre names [movie_type] counts: the pieces of every present genre
    cell, trimmed. *)
Definition genre_tokens (self : MovieData) : list string :=
  List.map pystr.strip
    (pd.split_explode ", " (pd.dropna (List.map movie.Movie_genres (movie_rows self)))).

(** Number of occurrences of [g] in [l]. *)
Definition occurrences (g : string) (l : list string) : Z :=
  Z.of_nat (count_occ string_dec l g).

(** Count stored for [g] in a value-count table, 0 when absent. *)
Fixpoint tally_of (g : string) (t : list (string * Z)) : Z :=
  match t with
  | [] => 0
  | (g', c) :: r => if String.eqb g g' then c else tally_of g r
  end.

(** Counts from the largest down. *)
Definition descending (t : list (string * Z)) : Prop :=
  StronglySorted (fun a b => snd b <= snd a) t.

(** Keys strictly increasing, as [groupby] leaves them. *)
Definition increasing (t : list (Z * Z)) : Prop :=
  StronglySorted Z.lt (List.map fst t).

(** A name [movie_type] reads back as it was joined: no comma in it and no
    blank at either end. *)
Fixpoint no_comma (s : string) : bool :=
  match s with
  | EmptyString => true
  | String c r => negb (Ascii.eqb c ",") && no_comma r
  end.

Definition tidy (v : string) : bool := no_comma v && String.eqb (pystr.strip v) v.

(** The names a raw genre cell stands for in the ranking: the values of its
    map, or the empty name alone when the map is empty or the cell does not
    parse; nothing for a missing cell. *)
Definition names_of `{PyLib} (cell : option string) : list string :=
  match cell with
  | None => []
  | Some s =>
      match literal_eval_values s with
      | Some (v :: vs) => v :: vs
      | _ => [""]
      end
  end.

(** Every value of every genre map of the table is tidy. *)
Definition tidy_genres `{PyLib} (movies : list movie.row) : bool :=
  forallb (fun r => match movie.Movie_genres r with
                    | Some s => match literal_eval_values s with
                                | Some vs => forallb tidy vs
                                | None => true
                                end
                    | None => true
                    end) movies.

(** Tests on a cell of a parsed date column: it is a date, a date of the
    year [y], a date of the month [m]. *)
Definition is_date (d : option Timestamp) : bool :=
  match d with Some _ => true | None => false end.

Definition in_year (y : Z) (d : option Timestamp) : bool :=
  match d with Some ts => year ts =? y | None => false end.

Definition in_month (m : Z) (d : option Timestamp) : bool :=
  match d with Some ts => month ts =? m | None => false end.

(** The genre test of [releases(g)] on one row, and the number of elements
    of a list passing a test. *)
Definition has_genre (g : string) (r : movie.row) : bool :=
  match movie.Movie_genres r with
  | Some s => contains_nocase g s
  | None => false
  end.

Definition number_of {A} (p : A -> bool) (l : list A) : Z :=
  Z.of_nat (length (List.filter p l)).

(** No gender cell of the character table holds a text. *)
Definition no_gender_text (self : MovieData) : bool :=
  forallb (fun r => match character.Actor_Gender r with Some _ => false | None => true end)
          (character_rows self).

(** The calls of [actor_distributions] of [moviedata_final.py] in which
    [.str.lower()] meets a gender column without a text: the table has rows,
    none of them with a gender, and the gender asked for is not "all". *)
Definition accessor_fails (self : MovieData) (g : string) : bool :=
  negb (String.eqb (pystr.lower g) "all")
  && match character_rows self with [] => false | _ => true end
  && no_gender_text self.

(** The movie identifiers of the character rows, and the test "this movie
    has exactly [k] character rows". *)
Definition movie_ids (self : MovieData) : list Z :=
  List.map character.Wikipedia_movie_ID (character_rows self).

Definition has_actors (self : MovieData) (k : Z) (id : Z) : bool :=
  count id (movie_ids self) =? k.

(** Every present genre cell of the table is one tidy name. *)
Definition single_genres (df : list movie.row) : bool :=
  forallb (fun r => match movie.Movie_genres r with
                    | Some s => tidy s
                    | None => true
                    end) df.

(** The rows a height query returned, none when it raised. *)
Definition rows_of {A} (r : result (list A)) : list A :=
  match r with Ok rows => rows | Raise _ => [] end.

(** The rows [actor_distributions] of either class keeps for a gender. *)
Definition gender_is (g : string) (r : character.row) : bool :=
  pd.eq_str (pystr.lower g) (pd.str_lower (character.Actor_Gender r)).

(** * Properties *)

(** ** The model on small inputs *)

Example normpath_up : posixpath.normpath "/srv/app/downloads/../../evil" = "/srv/evil".
Proof. reflexivity. Qed.

Example commonprefix_chars :
  posixpath.commonprefix ["/srv/app/downloads"; "/srv/app/downloads_evil/x"]
  = "/srv/app/downloads".
Proof. reflexivity. Qed.

Example split_genres : pystr.split ", " "Drama, Comedy, " = ["Drama"; "Comedy"; ""].
Proof. reflexivity. Qed.

Example literal_eval_genres :
  literal_eval_values genres_raw = Some ["Comedy"; "Drama"]
  /\ literal_eval_values "Comedy, Drama" = None
  /\ literal_eval_values "{}" = Some [].
Proof. repeat split; reflexivity. Qed.

Example rescale_metres :
  moviedata_final.rescale_height (Some (178 # 100)) = Some (17800 # 100)
  /\ (17800 # 100 == 178 # 1)%Q
  /\ moviedata_final.rescale_height (Some (178 # 1)) = Some (178 # 1).
Proof. repeat split; reflexivity. Qed.

Example to_datetime_first_format :
  to_datetime [Some "2001-08-24"; Some "2001"; None; Some "1999-01"; Some "2001-02-31"]
  = [Some {| year := 2001; month := 8; day := 24 |}; None; None; None; None]
  /\ to_datetime [Some "2001"] = [Some {| year := 2001; month := 1; day := 1 |}]
  /\ to_datetime [None; Some "1999-01"; Some "2004-02"; Some "2004-02-29"]
     = [None; Some {| year := 1999; month := 1; day := 1 |};
        Some {| year := 2004; month := 2; day := 1 |}; None]
  /\ to_datetime [Some "1010-12-02"; Some "2001"; Some "1677-09-22"; Some "1677-09-21"]
     = [None; None; Some {| year := 1677; month := 9; day := 22 |}; None].
Proof. repeat split; reflexivity. Qed.

Example groupby_size_sorted : pd.groupby_size [3; 1; 2; 3; 1; 3] = [(1, 2); (2, 1); (3, 3)].
Proof. reflexivity. Qed.

Example value_counts_ties :
  pd.value_counts ["a"; "b"; "c"; "b"; "c"; "d"] = [("b", 2); ("c", 2); ("a", 1); ("d", 1)].
Proof. reflexivity. Qed.

Example sample_queries :
  moviedata_final.releases sample (Some "Comedy") = Ok [(2001, 1)]
  /\ moviedata_final.releases sample None = Ok [(2001, 1)]
  /\ moviedata_final.actor_count sample = [(2, 2)]
  /\ moviedata_final.movie_type sample (PInt 1) = Ok [("Comedy", 2)]
  /\ moviedata_final.ages sample "M" = Ok [(5, 4)].
Proof. repeat split; vm_compute; reflexivity. Qed.

(** ** Text *)

Lemma lower_char_idem c : pystr.lower_char (pystr.lower_char c) = pystr.lower_char c.
Proof. destruct c as [[] [] [] [] [] [] [] []]; reflexivity. Qed.

Lemma lower_idem s : pystr.lower (pystr.lower s) = pystr.lower s.
Proof.
  induction s as [|c s IH]; simpl; [reflexivity|].
  now rewrite lower_char_idem, IH.
Qed.

(** ** Lists *)

Lemma filter_map_commute {A} (p : A -> bool) (f : A -> A) l :
  (forall x, p (f x) = p x) ->
  List.map f (List.filter p l) = List.filter p (List.map f l).
Proof.
  intros Hp. induction l as [|x l IH]; [reflexivity|].
  cbn [List.filter List.map]. rewrite Hp.
  destruct (p x); cbn [List.map]; now rewrite IH.
Qed.

Lemma filter_all {A} (p : A -> bool) l :
  (forall x, In x l -> p x = true) -> List.filter p l = l.
Proof.
  induction l as [|x l IH]; intros H; [reflexivity|].
  cbn [List.filter]. rewrite (H x (or_introl eq_refl)).
  f_equal. apply IH. intros y Hy. apply H. now right.
Qed.

Lemma map_fixed {A} (f : A -> A) l :
  (forall x, In x l -> f x = x) -> List.map f l = l.
Proof.
  induction l as [|x l IH]; intros H; [reflexivity|].
  cbn [List.map]. rewrite (H x (or_introl eq_refl)).
  f_equal. apply IH. intros y Hy. apply H. now right.
Qed.

(** ** Gender normalisation *)

Section Gender.
Import moviedata_final.

Lemma normalize_gender_present s :
  normalize_gender (Some s) =
  if String.eqb (pystr.strip (pystr.lower s)) "m" then Some "male"
  else if String.eqb (pystr.strip (pystr.lower s)) "f" then Some "female"
  else Some s.
Proof.
  unfold normalize_gender. simpl.
  destruct (String.eqb (pystr.strip (pystr.lower s)) "m"); [reflexivity|].
  destruct (String.eqb (pystr.strip (pystr.lower s)) "f"); reflexivity.
Qed.

Lemma normalize_gender_missing : normalize_gender None = None.
Proof. reflexivity. Qed.

Lemma normalize_gender_idem c : normalize_gender (normalize_gender c) = normalize_gender c.
Proof.
  destruct c as [s|]; [|reflexivity].
  rewrite (normalize_gender_present s).
  destruct (String.eqb (pystr.strip (pystr.lower s)) "m") eqn:Em; [reflexivity|].
  destruct (String.eqb (pystr.strip (pystr.lower s)) "f") eqn:Ef; [reflexivity|].
  now rewrite normalize_gender_present, Em, Ef.
Qed.

(** C3, as the code has it: an unrecognised code is not turned into
    "unknown", the cell keeps the text it had. *)
Lemma normalize_gender_keeps_unrecognized : normalize_gender (Some "x") <> Some "unknown".
Proof. discriminate. Qed.

(** C3 (amended): a present gender cell is compared after lowercasing and
    trimming; "m" gives "male", "f" gives "female", and any other text,
    the expanded "male" and "female" and unrecognised codes alike, is
    kept as it was; "M", "m" and " M " all give "male". *)
Theorem normalize_gender_spec :
  (forall s, normalize_gender (Some s) =
             if String.eqb (pystr.strip (pystr.lower s)) "m" then Some "male"
             else if String.eqb (pystr.strip (pystr.lower s)) "f" then Some "female"
             else Some s)
  /\ normalize_gender (Some "M") = Some "male"
  /\ normalize_gender (Some "m") = Some "male"
  /\ normalize_gender (Some " M ") = Some "male"
  /\ normalize_gender (Some "F") = Some "female"
  /\ normalize_gender (Some "male") = Some "male"
  /\ normalize_gender (Some "female") = Some "female"
  /\ normalize_gender (Some "x") = Some "x".
Proof.
  split; [exact normalize_gender_present|].
  repeat split; reflexivity.
Qed.

Lemma normalize_gender_column_idem df :
  normalize_gender_column (normalize_gender_column df) = normalize_gender_column df.
Proof.
  unfold normalize_gender_column. rewrite List.map_map.
  apply List.map_ext. intros r. unfold set_gender_height. simpl.
  now rewrite normalize_gender_idem.
Qed.

Lemma normalize_gender_column_filter df :
  normalize_gender_column (List.filter has_height df)
  = List.filter has_height (normalize_gender_column df).
Proof.
  unfold normalize_gender_column. apply filter_map_commute.
  intros r. reflexivity.
Qed.

End Gender.

(** ** The height query *)

Section HeightQuery.
Import moviedata_final.

Lemma filter_none {A} (p : A -> bool) l :
  (forall x, p x = false) -> List.filter p l = [].
Proof.
  intros H. induction l as [|x l IH]; [reflexivity|].
  cbn [List.filter]. now rewrite H.
Qed.

Lemma actor_distributions_state self g lo hi :
  fst (actor_distributions self g lo hi)
  = {| movie_df := movie_df self;
       character_df := option_map normalize_gender_column (character_df self) |}.
Proof.
  destruct self as [m [[|r df]|]]; try reflexivity.
  unfold actor_distributions. cbn [character_df movie_df option_map].
  destruct (negb _); [destruct (pd.holds_text _)|]; try reflexivity;
    match goal with |- fst (match ?l with _ => _ end) = _ => destruct l end; reflexivity.
Qed.

Lemma holds_text_normalized df :
  pd.holds_text (List.map character.Actor_Gender (normalize_gender_column df))
  = negb (forallb (fun r => match character.Actor_Gender r with
                            | Some _ => false
                            | None => true
                            end) df).
Proof.
  unfold pd.holds_text, normalize_gender_column. rewrite List.map_map.
  induction df as [|r df IH]; [reflexivity|].
  cbn [List.map existsb forallb]. rewrite IH.
  change (character.Actor_Gender (set_gender_height _ _ r))
    with (normalize_gender (character.Actor_Gender r)).
  destruct (character.Actor_Gender r) as [s|]; [|reflexivity].
  rewrite normalize_gender_present.
  destruct (String.eqb _ "m"); [reflexivity|]. destruct (String.eqb _ "f"); reflexivity.
Qed.

Lemma actor_distributions_all self lo hi :
  snd (actor_distributions self "all" lo hi)
  = Ok (List.map gender_height
          (List.filter (in_range lo hi) (normalize_gender_column (character_rows self)))).
Proof.
  destruct self as [m [[|r df]|]]; try reflexivity.
  unfold actor_distributions, character_rows. cbn [character_df movie_df].
  change (negb (String.eqb (pystr.lower "all") "all")) with false. cbv iota.
  fold (in_range lo hi).
  destruct (List.filter (in_range lo hi) (normalize_gender_column (r :: df))); reflexivity.
Qed.

(** With the bounds in the wrong order no height passes the filter: the
    call returns an empty table, unless the gender comparison raises first
    on a gender column without a text. *)
Lemma actor_distributions_reversed_bounds self g lo hi :
  Qle_bool lo hi = false ->
  snd (actor_distributions self g lo hi)
  = if accessor_fails self g
    then Raise (AttributeError "Can only use .str accessor with string values!")
    else Ok [].
Proof.
  intros Hlt. unfold accessor_fails, no_gender_text.
  destruct self as [m [[|r df]|]];
    try (cbn; now rewrite ?andb_false_r).
  unfold actor_distributions, character_rows. cbn [character_df movie_df].
  rewrite holds_text_normalized. rewrite andb_true_r.
  fold (in_range lo hi).
  rewrite (filter_none (in_range lo hi)).
  - destruct (negb (String.eqb (pystr.lower g) "all")); [|reflexivity].
    cbn [andb]. destruct (forallb _ (r :: df)); reflexivity.
  - intros x. unfold in_range. destruct (character.Actor_height x) as [h|]; [|reflexivity].
    destruct (Qle_bool lo h) eqn:E1; [|reflexivity].
    destruct (Qle_bool h hi) eqn:E2; [|reflexivity].
    apply Qle_bool_iff in E1, E2.
    assert (Qle_bool lo hi = true) by (apply Qle_bool_iff; eapply Qle_trans; eauto).
    congruence.
Qed.

(** C5, the code against the claim: with min 300 and max 100 the height
    query of [moviedata_final.py] returns an empty table and raises nothing;
    the one of [moviedata.py] rejects the same bounds with a [ValueError]. *)
Theorem actor_distributions_min_above_max :
  snd (moviedata_final.actor_distributions sample "all" (300 # 1) (100 # 1)) = Ok []
  /\ moviedata.actor_distributions sample "m" (100 # 1) (300 # 1)
     = Raise (ValueError "min_height must be less than max_height.").
Proof. split; vm_compute; reflexivity. Qed.

(** C10: the gender argument is read through [lower()] only, so a gender
    and its lowercase form give the same call; "All" and "ALL" act as "all",
    which filters on height alone, and "Male" as "male". *)
Theorem actor_distributions_gender_case :
  (forall self g lo hi,
      actor_distributions self g lo hi = actor_distributions self (pystr.lower g) lo hi)
  /\ (forall self lo hi,
         actor_distributions self "All" lo hi = actor_distributions self "all" lo hi
         /\ actor_distributions self "ALL" lo hi = actor_distributions self "all" lo hi
         /\ actor_distributions self "Male" lo hi = actor_distributions self "male" lo hi)
  /\ (forall self lo hi,
         snd (actor_distributions self "all" lo hi)
         = Ok (List.map gender_height
                 (List.filter (in_range lo hi)
                    (normalize_gender_column (character_rows self))))).
Proof.
  split; [|split].
  - intros self g lo hi. unfold actor_distributions. now rewrite lower_idem.
  - intros self lo hi. repeat split; reflexivity.
  - exact actor_distributions_all.
Qed.

End HeightQuery.

(** ** Top genres *)

Section TopGenres.
Context {L : PyLib}.
Import moviedata_final.

(** C6, as the code has it: [movie_type(0)] and [movie_type(-1)] return a
    table, and [movie_type(True)], not an integer in the claim's sense,
    passes the guard too: none of the three raises a validation error. *)
Lemma movie_type_nonpositive_returns :
  is_ValueError (movie_type sample (PInt 0)) = false
  /\ movie_type sample (PInt 0) = Ok []
  /\ movie_type sample (PInt (-1)) = Ok [("Comedy", 2)]
  /\ is_ValueError (movie_type sample (PBool true)) = false
  /\ is_TypeError (movie_type sample (PBool true)) = true.
Proof. repeat split; vm_compute; reflexivity. Qed.

(** C6 (amended): an argument that is neither an integer nor a boolean is
    rejected with a [ValueError]; a boolean passes the guard and, on a
    loaded table, [head] raises a [TypeError] on it; every integer is
    accepted, 0 giving the empty table and a negative [-k] the ranking
    without its last [k] entries. *)
Theorem movie_type_validation self :
  (forall q, movie_type self (PFloat q) = Raise (ValueError "N must be an integer."))
  /\ (forall s, movie_type self (PStr s) = Raise (ValueError "N must be an integer."))
  /\ movie_type self PNone = Raise (ValueError "N must be an integer.")
  /\ (forall b, match movie_df self with
                | Some _ => is_TypeError (movie_type self (PBool b)) = true
                | None => movie_type self (PBool b) = Ok []
                end)
  /\ (forall n, is_ok (movie_type self (PInt n)) = true)
  /\ movie_type self (PInt 0) = Ok []
  /\ (forall k : positive,
         movie_type self (PInt (Z.neg k))
         = Ok (firstn (length (genre_ranking self) - Pos.to_nat k) (genre_ranking self))).
Proof.
  unfold movie_type, genre_ranking.
  split; [reflexivity|]. split; [reflexivity|]. split; [reflexivity|].
  split; [|split; [|split]].
  - intros b. destruct (movie_df self); reflexivity.
  - intros n. destruct (movie_df self); reflexivity.
  - destruct (movie_df self); reflexivity.
  - intros k. destruct (movie_df self) as [df|]; [reflexivity|].
    now rewrite firstn_nil.
Qed.

End TopGenres.

(** ** The cleaner *)

Section Cleaner.
Context {L : PyLib}.
Import moviedata_final.

Lemma has_height_clean r : has_height (clean_character_row r) = has_height r.
Proof.
  unfold has_height, clean_character_row, set_gender_height, rescale_height. simpl.
  destruct (character.Actor_height r) as [h|]; [|reflexivity].
  destruct (negb (Qle_bool (10 # 1) h)); reflexivity.
Qed.

Lemma clean_character_df_rows df :
  clean_character_df df = List.map clean_character_row (List.filter has_height df).
Proof.
  unfold clean_character_df, normalize_gender_column, to_numeric.
  rewrite List.map_map.
  rewrite (filter_map_commute has_height clean_character_row) by apply has_height_clean.
  reflexivity.
Qed.

Lemma clean_movie_df_rows df : clean_movie_df df = List.map clean_movie_row df.
Proof.
  unfold clean_movie_df, clean_column_values. rewrite !List.map_map.
  apply List.map_ext. intros r. reflexivity.
Qed.

Lemma startup_tables movies characters :
  startup movies characters
  = {| movie_df := Some (List.map clean_movie_row movies);
       character_df := Some (List.map clean_character_row (List.filter has_height characters)) |}.
Proof.
  unfold startup, loaded, _clean_data. cbn [movie_df character_df fst].
  now rewrite clean_movie_df_rows, clean_character_df_rows.
Qed.

(** C9 (amended): [_clean_data] drops the rows with a missing height from
    the stored character table itself: the table it leaves holds, in order,
    the cleaned rows of exactly the input rows that have a height, and every
    row in it has one. *)
Theorem clean_data_drops_missing_height movies characters :
  character_df (startup movies characters)
  = Some (List.map clean_character_row (List.filter has_height characters))
  /\ Forall (fun r => has_height r = true) (character_rows (startup movies characters))
  /\ length (character_rows (startup movies characters))
     = length (List.filter has_height characters).
Proof.
  rewrite startup_tables. unfold character_rows. cbn [character_df].
  split; [reflexivity|]. split.
  - apply List.Forall_forall. intros r Hr. apply List.in_map_iff in Hr.
    destruct Hr as (r0 & <- & Hr0). rewrite has_height_clean.
    now apply List.filter_In in Hr0.
  - apply List.length_map.
Qed.

End Cleaner.

(** C9, as the code has it: a row whose height is missing is gone from the
    stored character table once [_clean_data] has run. *)
Lemma clean_data_drops_row :
  character_df (moviedata_final.startup [] [character_row 3 (Some "F") None]) = Some []
  /\ ~ In (clean_character_row (character_row 3 (Some "F") None))
          (character_rows (moviedata_final.startup [] [character_row 3 (Some "F") None])).
Proof. split; [reflexivity|intros []]. Qed.

(** ** Cleaning twice *)

Section CleanTwice.
Context {L : PyLib}.
Import moviedata_final.








End CleanTwice.



(** ** The queries and the shared tables *)

Section Frame.
Context {L : PyLib}.
Import moviedata_final.

Lemma startup_gender_normal movies characters : gender_normal (startup movies characters).
Proof.
  unfold gender_normal. rewrite startup_tables. unfold character_rows. cbn [character_df].
  unfold normalize_gender_column. rewrite List.map_map. apply List.map_ext.
  intros r. unfold clean_character_row, set_gender_height. cbn.
  now rewrite normalize_gender_idem.
Qed.

Lemma run_frame c self : gender_normal self -> fst (run c self) = self.
Proof.
  intros H. destruct c; try reflexivity.
  cbn [run].
  pose proof (actor_distributions_state self gender min_height max_height) as E.
  destruct (actor_distributions self gender min_height max_height) as [self' r].
  cbn [fst] in *. subst self'.
  destruct self as [m [df|]]; [|reflexivity].
  unfold gender_normal, character_rows in H. cbn [character_df movie_df option_map] in *.
  now rewrite H.
Qed.

Lemma run_all_frame cs self : gender_normal self -> run_all cs self = self.
Proof.
  intros H. induction cs as [|c cs IH]; [reflexivity|].
  unfold run_all in *. cbn [fold_left]. now rewrite (run_frame c self H).
Qed.

(** C2: whatever calls came before, each of the five queries, with any
    argument, leaves the shared object with the two tables it had before
    the call, which are still the tables built at startup; its result is a
    value computed from them. *)
Theorem queries_leave_tables_unchanged movies characters cs c :
  let self := run_all cs (startup movies characters) in
  fst (run c self) = self /\ self = startup movies characters.
Proof.
  cbv zeta.
  rewrite (run_all_frame cs _ (startup_gender_normal movies characters)).
  split; [|reflexivity].
  apply run_frame, startup_gender_normal.
Qed.

End Frame.

(** ** Grouping *)

Section GroupBy.

Local Abbreviation keys t := (List.map fst t).
Local Abbreviation sorted t := (StronglySorted Z.lt (List.map fst t)).

Lemma total_bump k t : total (pd.bump k t) = total t + 1.
Proof.
  induction t as [|[k' c] t IH]; cbn [pd.bump total]; [lia|].
  destruct (k <? k'); [cbn [total]; lia|].
  destruct (k =? k'); cbn [total]; lia.
Qed.

Lemma total_fold l acc :
  total (fold_left (fun acc k => pd.bump k acc) l acc) = total acc + Z.of_nat (length l).
Proof.
  revert acc. induction l as [|k l IH]; intros acc; cbn [fold_left length]; [lia|].
  rewrite IH, total_bump. lia.
Qed.

Lemma total_groupby_size l : total (pd.groupby_size l) = Z.of_nat (length l).
Proof. unfold pd.groupby_size. now rewrite total_fold. Qed.

Lemma in_keys_bump x k t : In x (keys (pd.bump k t)) <-> x = k \/ In x (keys t).
Proof.
  induction t as [|[k' c] t IH]; cbn [pd.bump List.map fst In].
  - intuition.
  - destruct (k <? k') eqn:E1; [cbn [List.map fst In]; intuition|].
    destruct (k =? k') eqn:E2; cbn [List.map fst In].
    + apply Z.eqb_eq in E2. subst. intuition.
    + rewrite IH. intuition.
Qed.

Lemma sorted_bump k t : sorted t -> sorted (pd.bump k t).
Proof.
  induction t as [|[k' c] t IH]; intros Hs; cbn [pd.bump List.map fst].
  - repeat constructor.
  - cbn [List.map fst] in Hs. apply StronglySorted_inv in Hs. destruct Hs as [Hs Hall].
    destruct (k <? k') eqn:E1.
    + apply Z.ltb_lt in E1. cbn [List.map fst]. constructor.
      * now constructor.
      * constructor; [exact E1|].
        eapply List.Forall_impl; [|exact Hall]. cbn. intros; lia.
    + apply Z.ltb_ge in E1. destruct (k =? k') eqn:E2; cbn [List.map fst].
      * now constructor.
      * apply Z.eqb_neq in E2. constructor; [now apply IH|].
        apply List.Forall_forall. intros x Hx. apply in_keys_bump in Hx.
        destruct Hx as [->|Hx]; [lia|].
        rewrite List.Forall_forall in Hall. now apply Hall.
Qed.

Lemma sorted_NoDup (l : list Z) : StronglySorted Z.lt l -> List.NoDup l.
Proof.
  induction 1 as [|a l Hs IH Hall]; constructor; [|exact IH].
  intros Hin. rewrite List.Forall_forall in Hall. specialize (Hall a Hin). lia.
Qed.

Lemma size_of_absent x t : ~ In x (keys t) -> size_of x t = 0.
Proof.
  induction t as [|[k c] t IH]; intros Hn; cbn [size_of]; [reflexivity|].
  cbn [List.map fst In] in Hn.
  destruct (x =? k) eqn:E; [apply Z.eqb_eq in E; subst; tauto|].
  apply IH. tauto.
Qed.

Lemma size_of_bump x k t :
  sorted t -> size_of x (pd.bump k t) = size_of x t + (if x =? k then 1 else 0).
Proof.
  induction t as [|[k' c] t IH]; intros Hs; cbn [pd.bump size_of].
  - destruct (x =? k); reflexivity.
  - cbn [List.map fst] in Hs. apply StronglySorted_inv in Hs. destruct Hs as [Hs Hall].
    destruct (k <? k') eqn:E1.
    + apply Z.ltb_lt in E1. cbn [size_of].
      destruct (x =? k) eqn:Ek; [|lia].
      apply Z.eqb_eq in Ek. subst x.
      assert ((k =? k') = false) as -> by (apply Z.eqb_neq; lia).
      rewrite size_of_absent; [reflexivity|].
      intros Hin. rewrite List.Forall_forall in Hall. specialize (Hall k Hin). lia.
    + destruct (k =? k') eqn:E2; cbn [size_of].
      * apply Z.eqb_eq in E2. subst k'.
        destruct (x =? k); lia.
      * apply Z.eqb_neq in E2. destruct (x =? k') eqn:E3.
        -- apply Z.eqb_eq in E3. subst x.
           assert ((k' =? k) = false) as -> by (apply Z.eqb_neq; lia). lia.
        -- now apply IH.
Qed.

Lemma count_cons x k l : count x (k :: l) = count x l + (if x =? k then 1 else 0).
Proof.
  unfold count. cbn [count_occ].
  destruct (Z.eq_dec k x) as [->|Hne].
  - rewrite Z.eqb_refl. lia.
  - assert ((x =? k) = false) as -> by (apply Z.eqb_neq; congruence). lia.
Qed.

Lemma groupby_fold l acc :
  sorted acc ->
  let t := fold_left (fun acc k => pd.bump k acc) l acc in
  (sorted t)
  /\ (forall x, In x (keys t) <-> In x l \/ In x (keys acc))
  /\ (forall x, size_of x t = size_of x acc + count x l).
Proof.
  revert acc. induction l as [|k l IH]; intros acc Hs; cbn [fold_left].
  - split; [exact Hs|]. split; intros x; [cbn [In]; tauto|unfold count; cbn; lia].
  - destruct (IH (pd.bump k acc) (sorted_bump k acc Hs)) as (H1 & H2 & H3).
    split; [exact H1|]. split; intros x.
    + rewrite H2, in_keys_bump. cbn [In]. intuition.
    + rewrite H3, size_of_bump, count_cons by exact Hs. lia.
Qed.

Lemma groupby_size_spec l :
  (sorted (pd.groupby_size l))
  /\ (forall x, In x (keys (pd.groupby_size l)) <-> In x l)
  /\ (forall x, size_of x (pd.groupby_size l) = count x l).
Proof.
  unfold pd.groupby_size.
  destruct (groupby_fold l [] (SSorted_nil _)) as (H1 & H2 & H3).
  split; [exact H1|]. split; intros x.
  - rewrite (H2 x). cbn [List.map In]. tauto.
  - now rewrite (H3 x).
Qed.

Lemma in_size_of x c t : sorted t -> In (x, c) t -> size_of x t = c.
Proof.
  induction t as [|[k c'] t IH]; intros Hs Hin; [destruct Hin|].
  cbn [List.map fst] in Hs. apply StronglySorted_inv in Hs. destruct Hs as [Hs Hall].
  cbn [size_of]. destruct Hin as [Heq|Hin].
  - inversion Heq; subst. now rewrite Z.eqb_refl.
  - assert (Hk : In x (keys t)) by (apply List.in_map_iff; exists (x, c); auto).
    rewrite List.Forall_forall in Hall. specialize (Hall x Hk).
    assert ((x =? k) = false) as -> by (apply Z.eqb_neq; lia).
    now apply IH.
Qed.

Lemma size_of_in x t : In x (keys t) -> In (x, size_of x t) t.
Proof.
  induction t as [|[k c] t IH]; intros Hin; [destruct Hin|].
  cbn [size_of]. destruct (x =? k) eqn:E.
  - apply Z.eqb_eq in E. subst. now left.
  - right. apply IH. cbn [List.map fst In] in Hin.
    apply Z.eqb_neq in E. destruct Hin; [congruence|assumption].
Qed.

(** A size table has one row per distinct key. *)
Lemma groupby_size_length l :
  length (pd.groupby_size l) = length (List.nodup Z.eq_dec l).
Proof.
  destruct (groupby_size_spec l) as (Hs & Hk & _).
  rewrite <- (List.length_map fst).
  apply Permutation_length. apply Permutation.NoDup_Permutation.
  - now apply sorted_NoDup.
  - apply List.NoDup_nodup.
  - intros x. rewrite Hk. now rewrite List.nodup_In.
Qed.

End GroupBy.

(** ** Actor counts and releases *)

Section Counts.
Context {L : PyLib}.
Import moviedata_final.

(** C7: the movie counts of [actor_count()] add up to the number of
    distinct movie identifiers among the character rows, and an empty or
    absent character table gives the empty table, no error. *)
Theorem actor_count_total self :
  total (actor_count self)
  = Z.of_nat (length (List.nodup Z.eq_dec
                        (List.map character.Wikipedia_movie_ID (character_rows self))))
  /\ (forall m, actor_count {| movie_df := m; character_df := Some [] |} = [])
  /\ (forall m, actor_count {| movie_df := m; character_df := None |} = []).
Proof.
  split; [|split; reflexivity].
  unfold actor_count, character_rows.
  destruct (character_df self) as [[|r df]|]; try reflexivity.
  rewrite total_groupby_size, List.length_map, groupby_size_length.
  reflexivity.
Qed.

Lemma in_groupby_size y c l :
  In (y, c) (pd.groupby_size l) <-> In y l /\ c = count y l.
Proof.
  destruct (groupby_size_spec l) as (Hs & Hk & Hc). split.
  - intros Hin. split.
    + apply Hk. apply List.in_map_iff. exists (y, c). auto.
    + rewrite <- Hc. symmetry. now apply in_size_of.
  - intros [Hin ->]. rewrite <- Hc. apply size_of_in. now apply Hk.
Qed.

Lemma in_dropna_subset {A B} (l : list (A * option B)) a b :
  In (a, b) (pd.dropna_subset l) <-> In (a, Some b) l.
Proof.
  induction l as [|[a' [b'|]] l IH]; cbn [pd.dropna_subset In].
  - tauto.
  - rewrite IH. split; (intros [H|H]; [left; congruence|right; exact H]).
  - rewrite IH. split; [auto|]. intros [H|H]; [discriminate|exact H].
Qed.

Lemma in_combine_nth {A B} (l : list A) (l' : list B) a b :
  In (a, b) (combine l l')
  <-> exists i, nth_error l i = Some a /\ nth_error l' i = Some b.
Proof.
  revert l'. induction l as [|x l IH]; intros [|x' l']; cbn [combine In].
  - split; [tauto|]. intros ([|i] & H & _); discriminate.
  - split; [tauto|]. intros ([|i] & H & _); discriminate.
  - split; [tauto|]. intros ([|i] & _ & H); discriminate.
  - rewrite IH. split.
    + intros [H|(i & H1 & H2)].
      * exists 0%nat. cbn [nth_error]. split; congruence.
      * exists (S i). auto.
    + intros ([|i] & H1 & H2); cbn [nth_error] in H1, H2.
      * left. congruence.
      * right. eauto.
Qed.

Lemma combine_map_r {A B C} (f : B -> C) (l : list A) (l' : list B) :
  combine l (List.map f l') = List.map (fun p => (fst p, f (snd p))) (combine l l').
Proof.
  revert l'. induction l as [|x l IH]; intros [|x' l']; try reflexivity.
  cbn [List.map combine fst snd]. now rewrite IH.
Qed.

Lemma dropna_subset_keys {A B} (l : list A) (l' : list (option B)) :
  length l = length l' ->
  List.map snd (pd.dropna_subset (combine l l')) = pd.dropna l'.
Proof.
  revert l'. induction l as [|x l IH]; intros [|[b|] l'] Hlen;
    try discriminate; try reflexivity;
    cbn [combine pd.dropna_subset pd.dropna List.map snd];
    rewrite IH by (cbn [length] in Hlen; congruence); reflexivity.
Qed.

Lemma count_filter_keys_le {A} (q : A * Z -> bool) (l : list (A * Z)) y :
  count y (List.map snd (List.filter q l)) <= count y (List.map snd l).
Proof.
  induction l as [|a l IH]; cbn [List.filter List.map]; [lia|].
  destruct (q a); cbn [List.map]; rewrite ?count_cons; destruct (y =? snd a); lia.
Qed.

Lemma release_years_length df : length (release_years df) = length df.
Proof. unfold release_years. now rewrite !List.length_map, to_datetime_length, List.length_map. Qed.

(** The rows [releases] keeps after [dropna], each with its year: row [i]
    of the table when cell [i] of the parsed column is a date. *)
Lemma in_dated_rows df r y :
  In (r, y) (pd.dropna_subset (combine df (release_years df)))
  <-> exists i d,
        nth_error df i = Some r
        /\ nth_error (to_datetime (List.map movie.Movie_release_Date df)) i = Some (Some d)
        /\ year d = y.
Proof.
  rewrite in_dropna_subset, in_combine_nth. unfold release_years. split.
  - intros (i & Hi & Hy). rewrite List.nth_error_map in Hy.
    destruct (nth_error (to_datetime _) i) as [[d|]|] eqn:Hd; try discriminate.
    exists i, d. cbn [option_map] in Hy. split; [exact Hi|]. split; [exact Hd|congruence].
  - intros (i & d & Hi & Hd & <-). exists i. split; [exact Hi|].
    rewrite List.nth_error_map, Hd. reflexivity.
Qed.

(** C8 (amended): on every movie table [releases("Comedy")] and
    [releases(None)] both return; each year of the filtered table is a year
    of the unfiltered one with a count at least as large, and a year is in
    the filtered table exactly when some row of the table has "Comedy" in
    its genre text, whatever the case of the letters, and has, in the
    release-date column as [pd.to_datetime] parses it as a whole, a date of
    that year. On the sample table, parsed as pandas 2 does, only the first
    row is counted: the dates 2001 and 1999-01 are not in the format of
    2001-08-24. *)
Theorem releases_comedy_subset :
  (forall df characters,
      let self := {| movie_df := Some df; character_df := characters |} in
      exists filtered unfiltered,
        releases self (Some "Comedy") = Ok filtered
        /\ releases self None = Ok unfiltered
        /\ (forall y c, In (y, c) filtered -> exists c', In (y, c') unfiltered /\ c <= c')
        /\ (forall y, (exists c, In (y, c) filtered)
                      <-> exists i r d,
                            nth_error df i = Some r
                            /\ nth_error (to_datetime (List.map movie.Movie_release_Date df)) i
                               = Some (Some d)
                            /\ year d = y
                            /\ is_comedy r = true))
  /\ releases (L := reference_lib) sample (Some "Comedy") = Ok [(2001, 1)]
  /\ releases (L := reference_lib) sample None = Ok [(2001, 1)].
Proof.
  split; [|split; vm_compute; reflexivity].
  intros df characters. cbv zeta. unfold releases. cbn [movie_df].
  pose proof (re_compile_plain "Comedy" eq_refl) as Hm.
  destruct (re_compile_ignorecase "Comedy") as [m|]; [|destruct Hm].
  do 2 eexists. split; [reflexivity|]. split; [reflexivity|].
  assert (Hp : forall r, str_contains m (movie.Movie_genres r) = is_comedy r).
  { intros r. unfold str_contains, is_comedy.
    destruct (movie.Movie_genres r); [apply Hm|reflexivity]. }
  split.
  - intros y c Hin. apply in_groupby_size in Hin. destruct Hin as [Hy ->].
    eexists. split; [|apply count_filter_keys_le].
    apply in_groupby_size. split; [|reflexivity].
    apply List.in_map_iff in Hy. destruct Hy as (x & Hx & Hin).
    apply List.filter_In in Hin. apply List.in_map_iff. exists x. tauto.
  - intros y. split.
    + intros (c & Hin). apply in_groupby_size in Hin. destruct Hin as [Hy _].
      apply List.in_map_iff in Hy. destruct Hy as ([r y'] & Hx & Hin).
      cbn [snd] in Hx. subst y'.
      apply List.filter_In in Hin. destruct Hin as [Hin Hg]. cbn [fst] in Hg.
      apply in_dated_rows in Hin. destruct Hin as (i & d & Hi & Hd & Hy).
      exists i, r, d. rewrite <- Hp. auto.
    + intros (i & r & d & Hi & Hd & Hy & Hc). eexists.
      apply in_groupby_size. split; [|reflexivity].
      apply List.in_map_iff. exists (r, y). split; [reflexivity|].
      apply List.filter_In. split; [|cbn [fst]; now rewrite Hp].
      apply in_dated_rows. eauto.
Qed.

End Counts.

(** C8, as the code has it: the release date "2001" of the second row is a
    date when parsed on its own, and the row is a comedy, yet the year 2001
    is not in the filtered table: parsed with the column, after
    "1999-08-24", the cell is not in the format of the first date and is
    dropped. *)
Lemma releases_drops_parseable_date :
  to_datetime [Some "2001"] = [Some {| year := 2001; month := 1; day := 1 |}]
  /\ is_comedy (movie_row 2 (Some "2001") (Some "Comedy")) = true
  /\ In (movie_row 2 (Some "2001") (Some "Comedy")) (movie_rows mixed_dates)
  /\ moviedata_final.releases mixed_dates (Some "Comedy") = Ok []
  /\ moviedata_final.releases mixed_dates None = Ok [(1999, 1)].
Proof. repeat split; vm_compute; auto. Qed.

(** ** The extractor *)

Section Extractor.

(** A rejected archive leaves the file system as it was. *)
Lemma safe_extract_rejected w tar path e :
  snd (moviedata.safe_extract w tar path) = Raise e ->
  fst (moviedata.safe_extract w tar path) = w.
Proof.
  unfold moviedata.safe_extract.
  destruct (moviedata.check_members w path tar); [discriminate|reflexivity].
Qed.

(** The entry "../../evil" fails the check of [moviedata.py] and nothing is
    written. *)
Lemma safe_extract_rejects_evil :
  moviedata._extract_data (world_with "../../evil")
  = (world_with "../../evil", Raise (Exception "Attempted Path Traversal in Tar File")).
Proof. vm_compute. reflexivity. Qed.

(** C1, the code against the claim. [_extract_data] of [moviedata_final.py]
    unpacks an archive whose entry is "../../evil" without any check: the
    call returns normally and the file lands at /srv/evil, outside the
    target directory /srv/app/downloads. The guard of [moviedata.py]
    compares characters, not path components, so it lets the entry
    "../downloads_evil/x" through, which also lands outside the target. *)
Theorem extract_data_writes_outside :
  (let r := moviedata_final._extract_data (world_with "../../evil") in
   snd r = Ok tt
   /\ fs (fst r) !! "/srv/evil" = Some (File "x")
   /\ fs (world_with "../../evil") !! "/srv/evil" = None
   /\ within (posixpath.abspath "/srv/app" download_dir) "/srv/evil" = false)
  /\ (let r := moviedata._extract_data (world_with "../downloads_evil/x") in
      snd r = Ok tt
      /\ fs (fst r) !! "/srv/app/downloads_evil/x" = Some (File "x")
      /\ fs (world_with "../downloads_evil/x") !! "/srv/app/downloads_evil/x" = None
      /\ within (posixpath.abspath "/srv/app" download_dir) "/srv/app/downloads_evil/x" = false).
Proof. cbv zeta. repeat split; vm_compute; reflexivity. Qed.

End Extractor.

(** * Further properties of the pipeline *)

(** ** The download *)

Section Download.
Import moviedata_final.

Lemma append_empty_r s : s +:+ "" = s.
Proof.
  induction s as [|c s IH]; [reflexivity|].
  change (String c (s +:+ "") = String c s). now f_equal.
Qed.

Lemma append_assoc a b c : (a +:+ b) +:+ c = a +:+ (b +:+ c).
Proof.
  induction a as [|x a IH]; [reflexivity|].
  change (String x ((a +:+ b) +:+ c) = String x (a +:+ (b +:+ c))). now f_equal.
Qed.

Lemma write_chunks_cwd w p written body :
  cwd (fst (io.write_chunks w p written body)) = cwd w.
Proof.
  revert w written. induction body as [|chunk rest IH|e]; intros w written;
    cbn [io.write_chunks]; try reflexivity.
  destruct (String.eqb chunk ""); [apply IH|]. now rewrite IH.
Qed.

Lemma write_chunks_ending w p written body :
  snd (io.write_chunks w p written body) = ending body.
Proof.
  revert w written. induction body as [|chunk rest IH|e]; intros w written;
    cbn [io.write_chunks ending]; try reflexivity.
  destruct (String.eqb chunk ""); apply IH.
Qed.

(** The loop leaves in the file what it held before, then every chunk. *)
Lemma write_chunks_fs w p written body :
  fs w !! p = Some (File written) ->
  fs (fst (io.write_chunks w p written body))
  = <[p := File (written +:+ received body)]> (fs w).
Proof.
  revert w written. induction body as [|chunk rest IH|e]; intros w written Hw;
    cbn [io.write_chunks received fst].
  - rewrite append_empty_r. symmetry. now apply insert_id.
  - destruct (String.eqb chunk "") eqn:E.
    + apply String.eqb_eq in E. subst chunk.
      change ("" +:+ received rest) with (received rest). now apply IH.
    + rewrite IH by (cbn [fs]; apply lookup_insert_eq).
      cbn [fs]. now rewrite insert_insert_eq, append_assoc.
  - rewrite append_empty_r. symmetry. now apply insert_id.
Qed.

Lemma download_skipped w resp :
  path_exists w archive_path = true -> _download_data w resp = (w, Ok tt).
Proof. intros H. unfold _download_data. fold archive_path. now rewrite H. Qed.

(** Once the request has answered with a good status and the file could be
    opened, the archive file holds the chunks received and the call ends as
    the body did. *)
Lemma download_outcome w body :
  path_exists w archive_path = false ->
  fs w !! posixpath.abspath (cwd w) (posixpath.join archive_path "..") = Some Dir ->
  _download_data w (Response true body)
  = ({| cwd := cwd w;
        fs := <[posixpath.abspath (cwd w) archive_path := File (received body)]> (fs w) |},
     ending body).
Proof.
  intros Hno Hdir. unfold _download_data. fold archive_path. rewrite Hno. cbn [negb].
  unfold io.open_wb. rewrite Hdir.
  unfold path_exists in Hno.
  destruct (fs w !! posixpath.abspath (cwd w) archive_path) eqn:E; [discriminate|].
  cbn [cwd].
  match goal with |- io.write_chunks ?w1 ?p ?wr ?b = _ =>
    pose proof (write_chunks_fs w1 p wr b) as Hfs;
    pose proof (write_chunks_cwd w1 p wr b) as Hcwd;
    pose proof (write_chunks_ending w1 p wr b) as Hend;
    destruct (io.write_chunks w1 p wr b) as [[c f] r]
  end.
  cbn [fst snd cwd fs] in *. subst c r.
  rewrite Hfs by apply lookup_insert_eq.
  change ("" +:+ received body) with (received body). now rewrite insert_insert_eq.
Qed.

(** X1: when the archive is not there, its directory is, and the request
    answers with a good status, the call ends as the body does and leaves in
    the archive file the chunks received up to there. The file then exists,
    so every later call skips the download and changes nothing, also when
    the first call raised in the middle of the body and left only a part of
    the archive. *)
Theorem download_not_repeated w body resp :
  path_exists w archive_path = false ->
  fs w !! posixpath.abspath (cwd w) (posixpath.join archive_path "..") = Some Dir ->
  let w1 := fst (_download_data w (Response true body)) in
  snd (_download_data w (Response true body)) = ending body
  /\ fs w1 !! posixpath.abspath (cwd w1) archive_path = Some (File (received body))
  /\ _download_data w1 resp = (w1, Ok tt).
Proof.
  intros Hno Hdir. cbv zeta. rewrite (download_outcome w body Hno Hdir).
  cbn [fst snd cwd fs]. split; [reflexivity|]. split; [apply lookup_insert_eq|].
  apply download_skipped. unfold path_exists. cbn [cwd fs].
  now rewrite lookup_insert_eq.
Qed.

Lemma download_not_repeated_witness :
  path_exists empty_downloads archive_path = false
  /\ fs empty_downloads
       !! posixpath.abspath (cwd empty_downloads) (posixpath.join archive_path "..")
     = Some Dir
  /\ snd (_download_data empty_downloads (Response true broken_body))
     = Raise (OSError "reset")
  /\ fs (fst (_download_data empty_downloads (Response true broken_body)))
       !! "/srv/app/downloads/MovieSummaries.tar.gz" = Some (File "abc")
  /\ _download_data (fst (_download_data empty_downloads (Response true broken_body)))
                    (Response true (stream_chunk "abcd" stream_end))
     = (fst (_download_data empty_downloads (Response true broken_body)), Ok tt).
Proof.
  split; [vm_compute; reflexivity|]. split; [vm_compute; reflexivity|].
  apply (download_not_repeated empty_downloads broken_body);
    vm_compute; reflexivity.
Defined.

(** X2: [_download_data] never touches a path other than the archive file, and
    writes nothing at all when the request fails or answers with a bad
    status. *)
Theorem download_frame w resp :
  cwd (fst (_download_data w resp)) = cwd w
  /\ (forall q, q <> posixpath.abspath (cwd w) archive_path ->
                fs (fst (_download_data w resp)) !! q = fs w !! q)
  /\ (forall e, fst (_download_data w (request_failed e)) = w)
  /\ (forall body, fst (_download_data w (Response false body)) = w).
Proof.
  assert (Hfail : forall e, fst (_download_data w (request_failed e)) = w).
  { intros e. unfold _download_data. destruct (negb _); reflexivity. }
  assert (Hbad : forall body, fst (_download_data w (Response false body)) = w).
  { intros body. unfold _download_data. destruct (negb _); reflexivity. }
  destruct resp as [e|[|] body].
  - rewrite Hfail. auto.
  - destruct (path_exists w archive_path) eqn:Hex.
    + rewrite (download_skipped w _ Hex). cbn [fst]. auto.
    + destruct (fs w !! posixpath.abspath (cwd w) (posixpath.join archive_path ".."))
        as [[| |]|] eqn:Hdir.
      * rewrite (download_outcome w body Hex Hdir). cbn [fst cwd fs].
        split; [reflexivity|]. split; [|auto].
        intros q Hq. now rewrite lookup_insert_ne.
      * unfold _download_data. fold archive_path. rewrite Hex. cbn [negb].
        unfold io.open_wb. rewrite Hdir. cbn [fst]. auto.
      * unfold _download_data. fold archive_path. rewrite Hex. cbn [negb].
        unfold io.open_wb. rewrite Hdir. cbn [fst]. auto.
      * unfold _download_data. fold archive_path. rewrite Hex. cbn [negb].
        unfold io.open_wb. rewrite Hdir. cbn [fst]. auto.
  - rewrite Hbad. auto.
Qed.

End Download.

(** ** The guard of [safe_extract] *)

Section Guard.

Lemma common_comm a b : posixpath.common a b = posixpath.common b a.
Proof.
  revert b. induction a as [|x a IH]; intros [|y b]; try reflexivity.
  cbn [posixpath.common]. rewrite (Ascii.eqb_sym y x).
  destruct (Ascii.eqb x y) eqn:E; [|reflexivity].
  apply Ascii.eqb_eq in E. subst y. now rewrite IH.
Qed.

Lemma common_is_first a b :
  String.eqb (posixpath.common a b) a = pystr.startswith a b.
Proof.
  revert b. induction a as [|x a IH]; intros [|y b]; try reflexivity.
  cbn [posixpath.common pystr.startswith].
  destruct (Ascii.eqb x y) eqn:E; [|reflexivity].
  cbn [String.eqb andb]. now rewrite Ascii.eqb_refl, IH.
Qed.

Lemma commonprefix_pair a b : posixpath.commonprefix [a; b] = posixpath.common a b.
Proof.
  unfold posixpath.commonprefix, posixpath.str_min, posixpath.str_max. cbn [fold_left].
  destruct (String.leb a b); [reflexivity|apply common_comm].
Qed.

Lemma check_members_spec w path tar :
  moviedata.check_members w path tar
  = if forallb (char_prefixed w path) tar then Ok tt
    else Raise (Exception "Attempted Path Traversal in Tar File").
Proof.
  induction tar as [|member rest IH]; [reflexivity|].
  cbn [moviedata.check_members forallb].
  rewrite commonprefix_pair, common_is_first. fold (char_prefixed w path member).
  destruct (char_prefixed w path member); [exact IH|reflexivity].
Qed.

(** X3: [safe_extract] of [moviedata.py] accepts an archive exactly when the
    absolute path of every entry starts, character by character, with the
    absolute target path; then all entries are unpacked. One entry failing
    the test, wherever it stands in the archive, rejects the whole archive
    before anything is written. *)
Theorem safe_extract_spec w tar path :
  moviedata.safe_extract w tar path
  = if forallb (char_prefixed w path) tar
    then (tarfile.extractall w path tar, Ok tt)
    else (w, Raise (Exception "Attempted Path Traversal in Tar File")).
Proof.
  unfold moviedata.safe_extract. rewrite check_members_spec.
  destruct (forallb (char_prefixed w path) tar); reflexivity.
Qed.

Lemma startswith_app a b : pystr.startswith a (a +:+ b) = true.
Proof.
  induction a as [|x a IH]; [reflexivity|].
  change (pystr.startswith (String x a) (String x (a +:+ b)) = true).
  cbn [pystr.startswith]. now rewrite Ascii.eqb_refl, IH.
Qed.

Lemma startswith_trans a b c :
  pystr.startswith a b = true -> pystr.startswith b c = true -> pystr.startswith a c = true.
Proof.
  revert b c. induction a as [|x a IH]; intros b c Hab Hbc; [reflexivity|].
  destruct b as [|y b]; [discriminate|]. destruct c as [|z c]; [discriminate|].
  cbn [pystr.startswith] in *.
  apply andb_prop in Hab, Hbc. destruct Hab as [Hxy Hab], Hbc as [Hyz Hbc].
  apply Ascii.eqb_eq in Hxy, Hyz. subst. rewrite Ascii.eqb_refl. cbn [andb].
  eapply IH; eassumption.
Qed.

Lemma startswith_refl a : pystr.startswith a a = true.
Proof. induction a as [|x a IH]; [reflexivity|]. cbn. now rewrite Ascii.eqb_refl. Qed.

Lemma within_startswith dir p : within dir p = true -> pystr.startswith dir p = true.
Proof.
  unfold within. intros H. apply orb_prop in H. destruct H as [H|H].
  - apply String.eqb_eq in H. subst. apply startswith_refl.
  - eapply startswith_trans; [apply (startswith_app dir "/")|exact H].
Qed.

(** X4: the guard has no false alarm: an archive all of whose entries resolve
    to the target directory or below it is unpacked. *)
Theorem safe_extract_accepts_inside w tar path :
  forallb (fun member =>
             within (posixpath.abspath (cwd w) path)
                    (posixpath.abspath (cwd w) (posixpath.join path (name member)))) tar
  = true ->
  moviedata.safe_extract w tar path = (tarfile.extractall w path tar, Ok tt).
Proof.
  intros H. unfold moviedata.safe_extract. rewrite check_members_spec.
  assert (forallb (char_prefixed w path) tar = true) as ->; [|reflexivity].
  rewrite List.forallb_forall in *. intros member Hin.
  apply within_startswith. now apply H.
Qed.

Lemma safe_extract_accepts_inside_witness :
  let w := world_with "MovieSummaries/movie.metadata.tsv" in
  let tar := [ {| name := "MovieSummaries/movie.metadata.tsv"; isdir := false; data := "x" |} ] in
  fs (fst (moviedata.safe_extract w tar download_dir))
    !! "/srv/app/downloads/MovieSummaries/movie.metadata.tsv" = Some (File "x").
Proof.
  cbv zeta.
  rewrite (safe_extract_accepts_inside
             (world_with "MovieSummaries/movie.metadata.tsv")
             [ {| name := "MovieSummaries/movie.metadata.tsv"; isdir := false; data := "x" |} ]
             download_dir);
    vm_compute; reflexivity.
Defined.

End Guard.

(** X5: when the extractor of [moviedata.py] succeeds, the extractor of
    [moviedata_final.py] does the same on the same world: the two differ
    only on the archives the guard rejects. *)
Theorem extract_data_agree w :
  snd (moviedata._extract_data w) = Ok tt ->
  moviedata_final._extract_data w = moviedata._extract_data w.
Proof.
  unfold moviedata._extract_data, moviedata_final._extract_data.
  destruct (negb (path_exists w extracted_dir)); [|reflexivity].
  destruct (tarfile.open w _) as [tar|e]; [|reflexivity].
  unfold moviedata.safe_extract. rewrite check_members_spec.
  destruct (forallb (char_prefixed w download_dir) tar); [reflexivity|discriminate].
Qed.

Lemma extract_data_agree_witness :
  snd (moviedata._extract_data (world_with "MovieSummaries/README")) = Ok tt
  /\ moviedata_final._extract_data (world_with "MovieSummaries/README")
     = moviedata._extract_data (world_with "MovieSummaries/README").
Proof.
  split; [vm_compute; reflexivity|].
  apply extract_data_agree. vm_compute. reflexivity.
Defined.

(** ** The ranking of genres *)

Section Ranking.

Lemma in_keys_tally x k t :
  In x (List.map fst (pd.tally k t)) <-> x = k \/ In x (List.map fst t).
Proof.
  induction t as [|[k' c] t IH]; cbn [pd.tally List.map fst In].
  - intuition.
  - destruct (String.eqb k k') eqn:E; cbn [List.map fst In].
    + apply String.eqb_eq in E. subst. intuition.
    + rewrite IH. intuition.
Qed.

Lemma NoDup_tally k t :
  List.NoDup (List.map fst t) -> List.NoDup (List.map fst (pd.tally k t)).
Proof.
  induction t as [|[k' c] t IH]; intros Hn; cbn [pd.tally List.map fst].
  - repeat constructor. intros [].
  - cbn [List.map fst] in Hn. inversion Hn as [|? ? Hnot Hrest]; subst.
    destruct (String.eqb k k') eqn:E; cbn [List.map fst].
    + now constructor.
    + constructor; [|now apply IH].
      intros Hin. apply in_keys_tally in Hin. destruct Hin as [->|Hin]; [|tauto].
      now rewrite String.eqb_refl in E.
Qed.

Lemma tally_of_tally x k t :
  tally_of x (pd.tally k t) = tally_of x t + (if String.eqb x k then 1 else 0).
Proof.
  induction t as [|[k' c] t IH]; cbn [pd.tally tally_of].
  - destruct (String.eqb x k); reflexivity.
  - destruct (String.eqb k k') eqn:E; cbn [tally_of].
    + apply String.eqb_eq in E. subst k'. destruct (String.eqb x k); lia.
    + destruct (String.eqb x k') eqn:E2; [|exact IH].
      apply String.eqb_eq in E2. subst x. rewrite String.eqb_sym, E. lia.
Qed.

Lemma occurrences_cons x k l :
  occurrences x (k :: l) = occurrences x l + (if String.eqb x k then 1 else 0).
Proof.
  unfold occurrences. cbn [count_occ].
  destruct (string_dec k x) as [->|Hne].
  - rewrite String.eqb_refl. lia.
  - assert ((String.eqb x k) = false) as -> by (apply String.eqb_neq; congruence). lia.
Qed.

Lemma tally_fold l acc :
  List.NoDup (List.map fst acc) ->
  let t := fold_left (fun acc k => pd.tally k acc) l acc in
  List.NoDup (List.map fst t)
  /\ (forall x, In x (List.map fst t) <-> In x l \/ In x (List.map fst acc))
  /\ (forall x, tally_of x t = tally_of x acc + occurrences x l).
Proof.
  revert acc. induction l as [|k l IH]; intros acc Hn; cbn [fold_left].
  - split; [exact Hn|]. split; intros x; [cbn [In]; tauto|unfold occurrences; cbn; lia].
  - destruct (IH (pd.tally k acc) (NoDup_tally k acc Hn)) as (H1 & H2 & H3).
    split; [exact H1|]. split; intros x.
    + rewrite H2, in_keys_tally. cbn [In]. intuition.
    + rewrite H3, tally_of_tally, occurrences_cons. lia.
Qed.

Lemma in_tally_of x c t :
  List.NoDup (List.map fst t) -> In (x, c) t -> tally_of x t = c.
Proof.
  induction t as [|[k c'] t IH]; intros Hn Hin; [destruct Hin|].
  cbn [List.map fst] in Hn. inversion Hn as [|? ? Hnot Hrest]; subst.
  cbn [tally_of]. destruct Hin as [Heq|Hin].
  - inversion Heq; subst. now rewrite String.eqb_refl.
  - assert (Hk : In x (List.map fst t)) by (apply List.in_map_iff; exists (x, c); auto).
    destruct (String.eqb x k) eqn:E; [|now apply IH].
    apply String.eqb_eq in E. subst. tauto.
Qed.

Lemma tally_of_in x t : In x (List.map fst t) -> In (x, tally_of x t) t.
Proof.
  induction t as [|[k c] t IH]; intros Hin; [destruct Hin|].
  cbn [tally_of]. destruct (String.eqb x k) eqn:E.
  - apply String.eqb_eq in E. subst. now left.
  - right. apply IH. cbn [List.map fst In] in Hin.
    apply String.eqb_neq in E. destruct Hin; [congruence|assumption].
Qed.

Lemma insert_desc_perm x l : Permutation (pd.insert_desc x l) (x :: l).
Proof.
  induction l as [|y l IH]; cbn [pd.insert_desc]; [reflexivity|].
  destruct (snd x <? snd y); [|reflexivity].
  rewrite IH. apply perm_swap.
Qed.

Lemma sort_desc_perm l : Permutation (fold_right pd.insert_desc [] l) l.
Proof.
  induction l as [|x l IH]; cbn [fold_right]; [reflexivity|].
  rewrite insert_desc_perm. now constructor.
Qed.

Lemma insert_desc_descending x l : descending l -> descending (pd.insert_desc x l).
Proof.
  unfold descending. induction l as [|y l IH]; intros Hs; cbn [pd.insert_desc].
  - repeat constructor.
  - apply StronglySorted_inv in Hs. destruct Hs as [Hs Hall].
    destruct (snd x <? snd y) eqn:E.
    + apply Z.ltb_lt in E. constructor; [now apply IH|].
      apply List.Forall_forall. intros z Hz.
      apply (Permutation_in _ (insert_desc_perm x l)) in Hz.
      destruct Hz as [<-|Hz]; [lia|].
      rewrite List.Forall_forall in Hall. now apply Hall.
    + apply Z.ltb_ge in E. constructor; [now constructor|].
      constructor; [exact E|].
      eapply List.Forall_impl; [|exact Hall]. cbn. intros; lia.
Qed.

Lemma sort_desc_descending l : descending (fold_right pd.insert_desc [] l).
Proof.
  induction l as [|x l IH]; cbn [fold_right]; [constructor|].
  now apply insert_desc_descending.
Qed.

Lemma in_firstn {A} (y : A) n l : In y (firstn n l) -> In y l.
Proof.
  revert n. induction l as [|x l IH]; intros [|n]; cbn [firstn In]; try tauto.
  intros [H|H]; [now left|right; eauto].
Qed.

Lemma firstn_sorted {A} (R : A -> A -> Prop) n l :
  StronglySorted R l -> StronglySorted R (firstn n l).
Proof.
  revert n. induction l as [|x l IH]; intros n Hs; destruct n; cbn [firstn];
    try constructor.
  - apply IH. now apply StronglySorted_inv in Hs.
  - apply StronglySorted_inv in Hs. destruct Hs as [_ Hall].
    rewrite List.Forall_forall in *. intros y Hy. apply Hall.
    now apply in_firstn in Hy.
Qed.

Lemma value_counts_spec l :
  descending (pd.value_counts l)
  /\ List.NoDup (List.map fst (pd.value_counts l))
  /\ (forall g c, In (g, c) (pd.value_counts l) <-> In g l /\ c = occurrences g l).
Proof.
  unfold pd.value_counts.
  set (t := fold_left (fun acc k => pd.tally k acc) l []).
  destruct (tally_fold l [] (List.NoDup_nil _)) as (Hn & Hk & Hc). fold t in Hn, Hk, Hc.
  pose proof (sort_desc_perm t) as Hp.
  split; [apply sort_desc_descending|]. split.
  - eapply Permutation_NoDup; [|exact Hn]. symmetry. now apply Permutation_map.
  - intros g c. split.
    + intros Hin. apply (Permutation_in _ Hp) in Hin. split.
      * assert (Hg : In g (List.map fst t)) by (apply List.in_map_iff; exists (g, c); auto).
        apply Hk in Hg. cbn [List.map In] in Hg. tauto.
      * rewrite <- (in_tally_of g c t Hn Hin), Hc. cbn [tally_of]. lia.
    + intros [Hin ->]. apply (Permutation_in _ (Permutation_sym Hp)).
      replace (occurrences g l) with (tally_of g t) by (rewrite Hc; cbn [tally_of]; lia).
      apply tally_of_in. apply Hk. now left.
Qed.

End Ranking.

Section TopGenresMore.
Context {L : PyLib}.
Import moviedata_final.

Lemma genre_ranking_tokens self : genre_ranking self = pd.value_counts (genre_tokens self).
Proof.
  unfold genre_ranking, genre_tokens, movie_rows, genre_value_counts.
  destruct (movie_df self); reflexivity.
Qed.

(** X6: the ranking behind [movie_type] lists every genre name found in the
    table once, with the number of times it occurs, and nothing else. *)
Theorem genre_ranking_counts self :
  List.NoDup (List.map fst (genre_ranking self))
  /\ (forall g c, In (g, c) (genre_ranking self)
                  <-> In g (genre_tokens self) /\ c = occurrences g (genre_tokens self)).
Proof.
  rewrite genre_ranking_tokens.
  destruct (value_counts_spec (genre_tokens self)) as (_ & Hn & Hc). auto.
Qed.

(** X7: for every integer [n], [movie_type(n)] returns the head of the ranking:
    counts never increase down the table, the rows are the first rows of the
    full ranking, and for [n >= 0] there are [min n (number of genres)] of
    them, so at most [n]. *)
Theorem movie_type_top self n :
  exists rows rest,
    movie_type self (PInt n) = Ok rows
    /\ genre_ranking self = rows ++ rest
    /\ descending (genre_ranking self)
    /\ descending rows
    /\ (0 <= n -> length rows = Nat.min (Z.to_nat n) (length (genre_ranking self)))
    /\ (0 <= n -> Z.of_nat (length rows) <= n).
Proof.
  assert (Hd : descending (genre_ranking self)).
  { rewrite genre_ranking_tokens. apply value_counts_spec. }
  assert (Hm : movie_type self (PInt n) = Ok (pd.head n (genre_ranking self))).
  { unfold movie_type, genre_ranking. destruct (movie_df self); [reflexivity|].
    unfold pd.head. destruct (0 <=? n); now rewrite List.firstn_nil. }
  unfold pd.head in Hm.
  destruct (0 <=? n) eqn:E.
  - apply Z.leb_le in E.
    exists (firstn (Z.to_nat n) (genre_ranking self)), (skipn (Z.to_nat n) (genre_ranking self)).
    split; [exact Hm|]. split; [symmetry; apply List.firstn_skipn|].
    split; [exact Hd|]. split; [now apply firstn_sorted|].
    rewrite List.length_firstn. split; intros _; lia.
  - apply Z.leb_gt in E.
    eexists _, (skipn _ (genre_ranking self)).
    split; [exact Hm|]. split; [symmetry; apply List.firstn_skipn|].
    split; [exact Hd|]. split; [now apply firstn_sorted|].
    split; intros; lia.
Qed.

Lemma split_go_plain v rest acc :
  no_comma v = true ->
  pystr.split_go ", " (v +:+ rest) acc O = pystr.split_go ", " rest (acc +:+ v) O.
Proof.
  revert acc. induction v as [|c v IH]; intros acc Hv.
  - now rewrite append_empty_r.
  - cbn [no_comma] in Hv. apply andb_prop in Hv. destruct Hv as [Hc Hv].
    change (String c v +:+ rest) with (String c (v +:+ rest)).
    cbn [pystr.split_go pystr.startswith].
    rewrite Ascii.eqb_sym. apply negb_true_iff in Hc. rewrite Hc. cbn [andb].
    rewrite (IH _ Hv). now rewrite append_assoc.
Qed.

Lemma split_join_go v vs acc :
  forallb no_comma (v :: vs) = true ->
  pystr.split_go ", " (pystr.join ", " (v :: vs)) acc O
  = (acc +:+ v) :: vs.
Proof.
  revert v acc. induction vs as [|v2 vs IH]; intros v acc Hv;
    cbn [forallb] in Hv; apply andb_prop in Hv; destruct Hv as [Hv Hvs].
  - cbn [pystr.join]. rewrite <- (append_empty_r v) at 1.
    now rewrite (split_go_plain v "" acc Hv).
  - change (pystr.join ", " (v :: v2 :: vs))
      with (v +:+ (", " +:+ pystr.join ", " (v2 :: vs))).
    rewrite (split_go_plain v _ acc Hv).
    change (", " +:+ pystr.join ", " (v2 :: vs))
      with (String "," (String " " (pystr.join ", " (v2 :: vs)))).
    cbn [pystr.split_go pystr.startswith Ascii.eqb Bool.eqb andb String.length Nat.pred].
    f_equal. now rewrite (IH v2 "" Hvs).
Qed.

(** Splitting what [safe_eval] joined gives the names back, provided no name
    holds a comma; the join of no name at all splits into one empty name. *)
Lemma split_join vs :
  forallb no_comma vs = true ->
  pystr.split ", " (pystr.join ", " vs) = match vs with [] => [""] | _ => vs end.
Proof.
  intros Hv. destruct vs as [|v vs]; [reflexivity|].
  unfold pystr.split. now rewrite (split_join_go v vs "" Hv).
Qed.

Lemma tokens_of_cell cell :
  match cell with
  | Some s => match literal_eval_values s with Some vs => forallb tidy vs | None => true end
  | None => true
  end = true ->
  List.map pystr.strip (pd.split_explode ", " (pd.dropna [safe_eval cell]))
  = names_of cell.
Proof.
  intros Ht. destruct cell as [s|]; [|reflexivity].
  unfold safe_eval, names_of. destruct (literal_eval_values s) as [vs|]; [|reflexivity].
  cbn [pd.dropna pd.split_explode flat_map]. rewrite List.app_nil_r.
  assert (Hc : forallb no_comma vs = true).
  { rewrite List.forallb_forall in *. intros v Hv. specialize (Ht v Hv).
    unfold tidy in Ht. now apply andb_prop in Ht. }
  rewrite (split_join vs Hc). destruct vs as [|v vs]; [reflexivity|].
  apply map_fixed. intros x Hx. rewrite List.forallb_forall in Ht.
  specialize (Ht x Hx). unfold tidy in Ht. apply andb_prop in Ht.
  now apply String.eqb_eq.
Qed.

Lemma tokens_of_table movies :
  tidy_genres movies = true ->
  List.map pystr.strip
    (pd.split_explode ", "
       (pd.dropna (List.map movie.Movie_genres (List.map clean_movie_row movies))))
  = flat_map (fun r => names_of (movie.Movie_genres r)) movies.
Proof.
  induction movies as [|r movies IH]; intros Ht; [reflexivity|].
  cbn [tidy_genres forallb] in Ht. apply andb_prop in Ht. destruct Ht as [Hr Ht].
  cbn [List.map flat_map]. rewrite <- (tokens_of_cell _ Hr), <- (IH Ht).
  change (movie.Movie_genres (clean_movie_row r)) with (safe_eval (movie.Movie_genres r)).
  destruct (safe_eval (movie.Movie_genres r)) as [s|]; [|reflexivity].
  cbn [pd.dropna pd.split_explode flat_map]. rewrite List.app_nil_r.
  unfold pd.split_explode. now rewrite List.map_app.
Qed.

(** X8: cleaning and ranking compose: when the names in the genre maps hold no
    comma and no blank at their ends, the ranking of the cleaned table
    counts exactly the names of the maps, a movie with an empty map or an
    unreadable cell counting once under the empty name, and a missing cell
    not at all. *)
Theorem ranking_counts_map_names movies characters :
  tidy_genres movies = true ->
  genre_ranking (startup movies characters)
  = pd.value_counts (flat_map (fun r => names_of (movie.Movie_genres r)) movies).
Proof.
  intros Ht. rewrite genre_ranking_tokens. f_equal.
  unfold genre_tokens, movie_rows. rewrite startup_tables. cbn [movie_df].
  now apply tokens_of_table.
Qed.

End TopGenresMore.

Lemma ranking_counts_map_names_witness :
  tidy_genres sample_movies = true
  /\ genre_ranking sample = [("Comedy", 2); ("Drama", 2)].
Proof.
  split; [reflexivity|].
  unfold sample.
  rewrite (ranking_counts_map_names sample_movies sample_characters);
    [reflexivity|vm_compute; reflexivity].
Defined.

(** ** The height queries *)

Section HeightQueryMore.
Import moviedata_final.

Lemma accessor_fails_all self : accessor_fails self "all" = false.
Proof. reflexivity. Qed.

Lemma actor_distributions_result self g lo hi :
  snd (actor_distributions self g lo hi)
  = if accessor_fails self g
    then Raise (AttributeError "Can only use .str accessor with string values!")
    else Ok (List.map gender_height
               (List.filter (fun r => String.eqb (pystr.lower g) "all" || gender_is g r)
                  (List.filter (in_range lo hi)
                     (normalize_gender_column (character_rows self))))).
Proof.
  unfold accessor_fails, no_gender_text.
  destruct self as [m [[|r df]|]];
    try (cbn [character_rows character_df]; rewrite andb_false_r; reflexivity).
  unfold actor_distributions, character_rows. cbn [character_df movie_df].
  rewrite holds_text_normalized, andb_true_r.
  fold (in_range lo hi). fold (gender_is g).
  destruct (String.eqb (pystr.lower g) "all"); cbn [negb andb orb].
  - rewrite (filter_all (fun _ => true)) by reflexivity.
    destruct (List.filter (in_range lo hi) _); reflexivity.
  - destruct (forallb _ (r :: df)); cbn [negb]; [reflexivity|].
    destruct (List.filter (gender_is g) _); reflexivity.
Qed.

(** X9: [actor_distributions] of [moviedata_final.py] raises in one case
    only, an [AttributeError] from [.str.lower()] when the gender asked for
    is not "all" and the table has rows but no gender cell with a text.
    Otherwise it returns the gender and height of exactly the rows of the
    table, genders normalised, whose height lies between the bounds, both
    included, and, unless the gender argument lowercases to "all", whose
    gender lowercased is the argument lowercased; when no row qualifies the
    table is empty. *)
Theorem actor_distributions_rows self g lo hi :
  exists rows,
    snd (actor_distributions self g lo hi)
    = (if accessor_fails self g
       then Raise (AttributeError "Can only use .str accessor with string values!")
       else Ok rows)
    /\ (forall row, In row rows <->
          exists r, In r (normalize_gender_column (character_rows self))
                    /\ row = gender_height r
                    /\ in_range lo hi r = true
                    /\ (String.eqb (pystr.lower g) "all" || gender_is g r = true))
    /\ (forall row, In row rows ->
          exists h, snd row = Some h /\ (lo <= h)%Q /\ (h <= hi)%Q).
Proof.
  eexists. split; [apply actor_distributions_result|].
  assert (Hrows : forall row,
    In row (List.map gender_height
              (List.filter (fun r => String.eqb (pystr.lower g) "all" || gender_is g r)
                 (List.filter (in_range lo hi)
                    (normalize_gender_column (character_rows self))))) <->
    exists r, In r (normalize_gender_column (character_rows self))
              /\ row = gender_height r
              /\ in_range lo hi r = true
              /\ (String.eqb (pystr.lower g) "all" || gender_is g r = true)).
  { intros row. rewrite List.in_map_iff. split.
    - intros (r & <- & Hr). apply List.filter_In in Hr. destruct Hr as [Hr Hg].
      apply List.filter_In in Hr. destruct Hr as [Hr Hh]. exists r. auto.
    - intros (r & Hr & -> & Hh & Hg). exists r. split; [reflexivity|].
      apply List.filter_In. split; [|exact Hg]. apply List.filter_In. auto. }
  split; [exact Hrows|].
  intros row Hin. apply Hrows in Hin. destruct Hin as (r & _ & -> & Hh & _).
  unfold in_range in Hh. unfold gender_height. cbn [snd].
  destruct (character.Actor_height r) as [h|]; [|discriminate].
  apply andb_prop in Hh. destruct Hh as [H1 H2].
  exists h. split; [reflexivity|]. split; now apply Qle_bool_iff.
Qed.

Lemma character_rows_after self g lo hi :
  character_rows (fst (actor_distributions self g lo hi))
  = normalize_gender_column (character_rows self).
Proof.
  rewrite actor_distributions_state. unfold character_rows. cbn [character_df].
  destruct (character_df self); reflexivity.
Qed.

(** X10: what [actor_distributions] does to the shared object: the movie table
    and every cell of the character table other than the gender cells stay
    as they are, the rows stay the same rows in the same order, and a second
    call, with any arguments, changes nothing more. *)
Theorem actor_distributions_touches_gender_only self g lo hi :
  let self1 := fst (actor_distributions self g lo hi) in
  movie_df self1 = movie_df self
  /\ List.map without_gender (character_rows self1)
     = List.map without_gender (character_rows self)
  /\ List.map character.Actor_Gender (character_rows self1)
     = List.map normalize_gender (List.map character.Actor_Gender (character_rows self))
  /\ (forall g' lo' hi', fst (actor_distributions self1 g' lo' hi') = self1).
Proof.
  cbv zeta. split; [now rewrite actor_distributions_state|].
  rewrite character_rows_after. unfold normalize_gender_column.
  split; [|split].
  - rewrite List.map_map. apply List.map_ext. intros r. reflexivity.
  - rewrite !List.map_map. apply List.map_ext. intros r. reflexivity.
  - intros g' lo' hi'. rewrite !actor_distributions_state. cbn [movie_df character_df].
    destruct (character_df self) as [df|]; [|reflexivity].
    cbn [option_map]. now rewrite normalize_gender_column_idem.
Qed.

Lemma holds_text_rows df :
  pd.holds_text (List.map character.Actor_Gender df)
  = negb (forallb (fun r => match character.Actor_Gender r with
                            | Some _ => false
                            | None => true
                            end) df).
Proof.
  unfold pd.holds_text. induction df as [|r df IH]; [reflexivity|].
  cbn [List.map existsb forallb]. rewrite IH.
  destruct (character.Actor_Gender r); reflexivity.
Qed.

(** X11: [actor_distributions] of [moviedata.py], whatever the type of the
    heights. It returns rows only for a loaded table, a gender that
    lowercases to "m" or "f", two numbers in order as heights and a gender
    column with a text (or a table without rows), and then exactly the rows
    whose gender lowercased is that letter and whose height lies between the
    bounds. It raises a [ValueError] only for an unloaded table, another
    gender ("all" and "Male" included) or bounds in the wrong order, a
    [TypeError] only for a height that is not a number, and an
    [AttributeError] only on a table with rows none of which has a gender;
    nothing else is raised. *)
Theorem sibling_actor_distributions_spec self gender max_height min_height :
  match moviedata.actor_distributions_any self gender max_height min_height with
  | Ok rows =>
      character_df self <> None
      /\ (pystr.lower gender = "m" \/ pystr.lower gender = "f")
      /\ (character_rows self = [] \/ no_gender_text self = false)
      /\ exists lo hi,
           as_number min_height = Some lo
           /\ as_number max_height = Some hi
           /\ (lo <= hi)%Q
           /\ (forall r, In r rows <->
                 In r (character_rows self)
                 /\ gender_is gender r = true
                 /\ pd.between lo hi (character.Actor_height r) = true)
  | Raise (ValueError _) =>
      character_df self = None
      \/ (pystr.lower gender <> "m" /\ pystr.lower gender <> "f")
      \/ (exists lo hi,
            as_number min_height = Some lo
            /\ as_number max_height = Some hi
            /\ ~ (lo <= hi)%Q)
  | Raise (TypeError _) =>
      character_df self <> None
      /\ (pystr.lower gender = "m" \/ pystr.lower gender = "f")
      /\ (as_number min_height = None \/ as_number max_height = None)
  | Raise (AttributeError _) =>
      (pystr.lower gender = "m" \/ pystr.lower gender = "f")
      /\ character_rows self <> []
      /\ no_gender_text self = true
      /\ (exists lo hi,
            as_number min_height = Some lo
            /\ as_number max_height = Some hi
            /\ (lo <= hi)%Q)
  | Raise _ => False
  end.
Proof.
  unfold moviedata.actor_distributions_any, moviedata.actor_distributions, no_gender_text.
  destruct (character_df self) as [df|] eqn:Edf; [|now left].
  assert (Hrows : character_rows self = df) by (unfold character_rows; now rewrite Edf).
  rewrite !Hrows. clear Hrows.
  destruct (String.eqb (pystr.lower gender) "m" || String.eqb (pystr.lower gender) "f")
    eqn:Eg; cbn [negb].
  2:{ right. left. apply orb_false_elim in Eg. destruct Eg as [Em Ef].
      split; now apply String.eqb_neq. }
  assert (Hg : pystr.lower gender = "m" \/ pystr.lower gender = "f").
  { apply orb_prop in Eg. destruct Eg as [E|E]; apply String.eqb_eq in E; auto. }
  destruct (as_number min_height) as [lo|] eqn:Elo.
  2:{ split; [discriminate|]. split; [exact Hg|]. now left. }
  destruct (as_number max_height) as [hi|] eqn:Ehi.
  2:{ split; [discriminate|]. split; [exact Hg|]. now right. }
  cbn [negb].
  destruct (Qle_bool lo hi) eqn:Eq; cbn [negb].
  2:{ right. right. exists lo, hi. split; [reflexivity|]. split; [reflexivity|].
      intros Hq. apply Qle_bool_iff in Hq. congruence. }
  apply Qle_bool_iff in Eq.
  destruct df as [|r0 df0].
  { split; [discriminate|]. split; [exact Hg|]. split; [now left|].
    exists lo, hi. split; [reflexivity|]. split; [reflexivity|]. split; [exact Eq|].
    intros r. cbn [In]. tauto. }
  rewrite holds_text_rows.
  destruct (forallb _ (r0 :: df0)) eqn:Ef; cbn [negb].
  - split; [exact Hg|]. split; [discriminate|]. split; [reflexivity|].
    exists lo, hi. auto.
  - split; [discriminate|]. split; [exact Hg|]. split; [right; reflexivity|].
    exists lo, hi. split; [reflexivity|]. split; [reflexivity|]. split; [exact Eq|].
    intros r. rewrite List.filter_In. fold (gender_is gender r).
    rewrite andb_true_iff. tauto.
Qed.

End HeightQueryMore.

(** ** What cleaning leaves and what it establishes *)

Section CleanerMore.
Context {L : PyLib}.
Import moviedata_final.

(** X12: [_clean_data] keeps every movie row, in order, and changes nothing in
    it but the three category cells; of the character rows it keeps those
    with a height, in order, and changes nothing in them but the gender and
    height cells. *)
Theorem clean_data_frame movies characters :
  List.map without_categories (movie_rows (startup movies characters))
  = List.map without_categories movies
  /\ length (movie_rows (startup movies characters)) = length movies
  /\ List.map without_gender_height (character_rows (startup movies characters))
     = List.map without_gender_height (List.filter has_height characters).
Proof.
  rewrite startup_tables. unfold movie_rows, character_rows. cbn [movie_df character_df].
  rewrite List.length_map, !List.map_map.
  split; [|split; [reflexivity|]]; apply List.map_ext; intros r; reflexivity.
Qed.

(** X13: after [_clean_data] no gender cell reads "m" or "f" once lowercased and
    trimmed, and each is left alone by the gender chain. *)
Theorem clean_data_genders movies characters :
  Forall (fun r =>
            normalize_gender (character.Actor_Gender r) = character.Actor_Gender r
            /\ forall s, character.Actor_Gender r = Some s ->
                         pystr.strip (pystr.lower s) <> "m"
                         /\ pystr.strip (pystr.lower s) <> "f")
         (character_rows (startup movies characters)).
Proof.
  rewrite startup_tables. unfold character_rows. cbn [character_df].
  apply List.Forall_forall. intros r Hr. apply List.in_map_iff in Hr.
  destruct Hr as (r0 & <- & _).
  change (character.Actor_Gender (clean_character_row r0))
    with (normalize_gender (character.Actor_Gender r0)).
  split; [apply normalize_gender_idem|].
  intros s Hs. destruct (character.Actor_Gender r0) as [s0|]; [|discriminate].
  rewrite normalize_gender_present in Hs.
  destruct (String.eqb (pystr.strip (pystr.lower s0)) "m") eqn:Em.
  { inversion Hs; subst s. split; discriminate. }
  destruct (String.eqb (pystr.strip (pystr.lower s0)) "f") eqn:Ef.
  { inversion Hs; subst s. split; discriminate. }
  inversion Hs; subst s. split; now apply String.eqb_neq.
Qed.

Lemma rescale_height_cm h :
  Qle_bool (1 # 10) h = true ->
  exists h', rescale_height (Some h) = Some h' /\ (10 # 1 <= h')%Q.
Proof.
  intros Hh. unfold rescale_height.
  destruct (Qle_bool (10 # 1) h) eqn:E; cbn [negb].
  - exists h. split; [reflexivity|now apply Qle_bool_iff].
  - eexists. split; [reflexivity|].
    apply Qle_bool_iff in Hh. destruct h as [a b]. unfold Qle in *. cbn in *. lia.
Qed.

(** X14: when no loaded height lies below 0.1, every row of the cleaned
    character table has a height, and it is at least 10. *)
Theorem clean_data_heights movies characters :
  heights_from_tenth characters = true ->
  Forall (fun r => exists h, character.Actor_height r = Some h /\ (10 # 1 <= h)%Q)
         (character_rows (startup movies characters)).
Proof.
  intros Hh. rewrite startup_tables. unfold character_rows. cbn [character_df].
  apply List.Forall_forall. intros r Hr. apply List.in_map_iff in Hr.
  destruct Hr as (r0 & <- & Hr0). apply List.filter_In in Hr0. destruct Hr0 as [Hin Hhas].
  unfold heights_from_tenth in Hh. rewrite List.forallb_forall in Hh. specialize (Hh r0 Hin).
  change (character.Actor_height (clean_character_row r0))
    with (rescale_height (character.Actor_height r0)).
  unfold has_height in Hhas.
  destruct (character.Actor_height r0) as [h0|]; [|discriminate].
  now apply rescale_height_cm.
Qed.

End CleanerMore.

Lemma clean_data_heights_witness :
  heights_from_tenth sample_characters = true
  /\ Forall (fun r => exists h, character.Actor_height r = Some h /\ (10 # 1 <= h)%Q)
            (character_rows sample).
Proof.
  split; [reflexivity|].
  apply (clean_data_heights sample_movies sample_characters). reflexivity.
Defined.

(** ** Counting by year, by actor count and by birth date *)

Section CountsMore.
Context {L : PyLib}.
Import moviedata_final.

Lemma count_pos_in y l : In y l <-> 0 < count y l.
Proof.
  unfold count. rewrite (count_occ_In Z.eq_dec). lia.
Qed.

Lemma count_dropna_map {A} (f : A -> option Z) (l : list A) y :
  count y (pd.dropna (List.map f l))
  = number_of (fun r => match f r with Some y' => y' =? y | None => false end) l.
Proof.
  unfold number_of.
  induction l as [|a l IH]; cbn [List.map pd.dropna List.filter]; [reflexivity|].
  destruct (f a) as [z|]; [|exact IH].
  rewrite count_cons, IH. rewrite (Z.eqb_sym y z).
  destruct (z =? y); cbn [length]; lia.
Qed.

Lemma length_dropna_map {A B} (f : A -> option B) (l : list A) :
  Z.of_nat (length (pd.dropna (List.map f l)))
  = number_of (fun r => match f r with Some _ => true | None => false end) l.
Proof.
  unfold number_of.
  induction l as [|a l IH]; cbn [List.map pd.dropna List.filter]; [reflexivity|].
  destruct (f a); cbn [length]; lia.
Qed.

Lemma in_groupby_size_pos y c l :
  In (y, c) (pd.groupby_size l) <-> 0 < c /\ c = count y l.
Proof.
  rewrite in_groupby_size, count_pos_in. split; intros [H ->]; auto.
Qed.

Lemma number_of_ext {A} (p q : A -> bool) l :
  (forall x, p x = q x) -> number_of p l = number_of q l.
Proof. intros H. unfold number_of. now rewrite (List.filter_ext p q H). Qed.

Lemma count_dated_keys {A} (q : A -> bool) (l : list (A * option Timestamp)) y :
  count y (List.map snd
             (List.filter (fun r => q (fst r))
                (pd.dropna_subset
                   (List.map (fun p => (fst p, option_map year (snd p))) l))))
  = number_of (fun p => q (fst p) && in_year y (snd p)) l.
Proof.
  unfold number_of.
  induction l as [|[a [d|]] l IH];
    cbn [List.map fst snd option_map pd.dropna_subset List.filter in_year];
    [reflexivity| |].
  - destruct (q a); cbn [andb List.map snd]; [|exact IH].
    rewrite count_cons, IH, (Z.eqb_sym y (year d)).
    destruct (year d =? y); cbn [length]; lia.
  - rewrite andb_false_r. exact IH.
Qed.

(** X15: [releases()] without a genre, or with the empty text, returns one
    row per year that some cell of the release-date column, parsed as a
    whole by [pd.to_datetime], is a date of, the years increasing, each
    with the number of such cells; the counts add up to the number of cells
    parsed to a date. On the sample table, parsed as pandas 2 does, one
    date of four is counted. *)
Theorem releases_all_years :
  (forall df characters,
      let self := {| movie_df := Some df; character_df := characters |} in
      let dates := to_datetime (List.map movie.Movie_release_Date df) in
      exists rows,
        releases self None = Ok rows
        /\ releases self (Some "") = Ok rows
        /\ increasing rows
        /\ (forall y c, In (y, c) rows <-> 0 < c /\ c = number_of (in_year y) dates)
        /\ total rows = number_of is_date dates)
  /\ to_datetime (PyLib := reference_lib) (List.map movie.Movie_release_Date (movie_rows sample))
     = [Some {| year := 2001; month := 8; day := 24 |}; None; None; None]
  /\ releases (L := reference_lib) sample None = Ok [(2001, 1)].
Proof.
  split; [|split; vm_compute; reflexivity].
  intros df characters. cbv zeta. unfold releases. cbn [movie_df].
  rewrite dropna_subset_keys by (symmetry; apply release_years_length).
  unfold release_years.
  eexists. split; [reflexivity|]. split; [reflexivity|]. split; [|split].
  - apply groupby_size_spec.
  - intros y c. rewrite in_groupby_size_pos, count_dropna_map.
    rewrite (number_of_ext _ (in_year y)); [reflexivity|].
    intros [d|]; reflexivity.
  - rewrite total_groupby_size, length_dropna_map.
    apply number_of_ext. intros [d|]; reflexivity.
Qed.

(** X16: for a genre written with letters, digits and spaces only, [releases]
    returns one row per year for which some row of the table has that genre
    in its genre text, whatever the case, and has, in the release-date
    column as [pd.to_datetime] parses it as a whole, a date of that year;
    the years increase, and each comes with the number of such rows. *)
Theorem releases_genre_counts df characters g :
  is_plain g = true ->
  g <> "" ->
  let self := {| movie_df := Some df; character_df := characters |} in
  let dated := combine df (to_datetime (List.map movie.Movie_release_Date df)) in
  exists rows,
    releases self (Some g) = Ok rows
    /\ increasing rows
    /\ (forall y c, In (y, c) rows
                    <-> 0 < c
                        /\ c = number_of (fun p => has_genre g (fst p) && in_year y (snd p))
                                         dated).
Proof.
  intros Hp Hg. cbv zeta. unfold releases. cbn [movie_df].
  pose proof (re_compile_plain g Hp) as Hm.
  destruct g as [|c0 g0]; [congruence|].
  destruct (re_compile_ignorecase (String c0 g0)) as [m|]; [|destruct Hm].
  eexists. split; [reflexivity|]. split; [apply groupby_size_spec|].
  intros y c. rewrite in_groupby_size_pos.
  unfold release_years. rewrite combine_map_r.
  rewrite (count_dated_keys (fun r => str_contains m (movie.Movie_genres r))).
  rewrite (number_of_ext _ (fun p => has_genre (String c0 g0) (fst p) && in_year y (snd p)));
    [reflexivity|].
  intros p. f_equal. unfold str_contains, has_genre.
  destruct (movie.Movie_genres (fst p)); [apply Hm|reflexivity].
Qed.

End CountsMore.

Lemma releases_genre_counts_witness :
  is_plain "Drama" = true
  /\ "Drama" <> ""
  /\ exists rows, moviedata_final.releases sample (Some "Drama") = Ok rows
                  /\ In (2001, 1) rows
                  /\ ~ In 1999 (List.map fst rows).
Proof.
  split; [reflexivity|]. split; [discriminate|].
  destruct (releases_genre_counts (movie_rows sample) (character_df sample) "Drama"
              eq_refl ltac:(discriminate)) as (rows & Hr & _ & Hc).
  exists rows. split; [exact Hr|]. split.
  - apply Hc. split; vm_compute; reflexivity.
  - intros Hin. apply List.in_map_iff in Hin. destruct Hin as ([y c] & Hy & Hin).
    cbn [fst] in Hy. subst y. apply Hc in Hin. destruct Hin as [Hpos Hcount].
    vm_compute in Hcount. subst c. discriminate.
Defined.

Section ActorCountMore.
Context {L : PyLib}.
Import moviedata_final.

Lemma groupby_keys_perm l :
  Permutation (List.map fst (pd.groupby_size l)) (List.nodup Z.eq_dec l).
Proof.
  destruct (groupby_size_spec l) as (Hs & Hk & _).
  apply Permutation.NoDup_Permutation.
  - now apply sorted_NoDup.
  - apply List.NoDup_nodup.
  - intros x. rewrite Hk. now rewrite List.nodup_In.
Qed.

Lemma groupby_sizes l :
  List.map snd (pd.groupby_size l)
  = List.map (fun id => count id l) (List.map fst (pd.groupby_size l)).
Proof.
  destruct (groupby_size_spec l) as (Hs & _ & Hc).
  rewrite List.map_map. apply List.map_ext_in. intros [x c] Hin. cbn [fst snd].
  rewrite <- Hc. symmetry. now apply in_size_of.
Qed.

Lemma count_map (f : Z -> Z) k l :
  count k (List.map f l) = number_of (fun id => f id =? k) l.
Proof.
  unfold number_of.
  induction l as [|a l IH]; cbn [List.map List.filter]; [reflexivity|].
  rewrite count_cons, IH, (Z.eqb_sym k (f a)).
  destruct (f a =? k); cbn [length]; lia.
Qed.

Lemma count_perm k l l' : Permutation l l' -> count k l = count k l'.
Proof.
  intros Hp. unfold count. f_equal.
  now apply (proj1 (Permutation_count_occ Z.eq_dec l l')).
Qed.

(** X17: [actor_count()] returns one row per number of actors that some movie
    has, the numbers increasing, each with the number of distinct movies
    having exactly that many character rows. *)
Theorem actor_count_rows self :
  increasing (actor_count self)
  /\ (forall k c, In (k, c) (actor_count self)
                  <-> 0 < c
                      /\ c = number_of (has_actors self k)
                                       (List.nodup Z.eq_dec (movie_ids self))).
Proof.
  assert (Hac : actor_count self
                = pd.groupby_size (List.map snd (pd.groupby_size (movie_ids self)))).
  { unfold actor_count, movie_ids, character_rows.
    destruct (character_df self) as [[|r df]|]; reflexivity. }
  rewrite Hac. split; [apply groupby_size_spec|].
  intros k c. rewrite in_groupby_size_pos.
  rewrite groupby_sizes.
  rewrite (count_perm k _ _ (Permutation_map _ (groupby_keys_perm (movie_ids self)))).
  rewrite count_map. reflexivity.
Qed.

(** X18: on a loaded character table [ages(unit)] never raises, whatever the
    unit: "M" counts by month and every other unit by year. The periods
    increase, each comes with the number of cells of the date-of-birth
    column, parsed as a whole by [pd.to_datetime], that are a date of that
    period, and the counts add up to the number of cells parsed to a date.
    On the sample table all four dates of birth are in May 1970. *)
Theorem ages_counts :
  (forall movies df unit,
      let self := {| movie_df := movies; character_df := Some df |} in
      let dates := to_datetime (List.map character.Actor_date_of_birth df) in
      exists rows,
        ages self unit = Ok rows
        /\ increasing rows
        /\ total rows = number_of is_date dates
        /\ (if String.eqb unit "M"
            then forall m c, In (m, c) rows <-> 0 < c /\ c = number_of (in_month m) dates
            else ages self unit = ages self "Y"
                 /\ forall y c, In (y, c) rows <-> 0 < c /\ c = number_of (in_year y) dates))
  /\ ages (L := reference_lib) sample "M" = Ok [(5, 4)]
  /\ ages (L := reference_lib) sample "Y" = Ok [(1970, 4)].
Proof.
  split; [|split; vm_compute; reflexivity].
  intros movies df unit. cbv zeta. unfold ages, birth_dates. cbn [character_df].
  change (String.eqb "Y" "M") with false. cbv iota.
  destruct (String.eqb unit "M"); eexists; (split; [reflexivity|]);
    (split; [apply groupby_size_spec|]); split.
  - rewrite total_groupby_size, length_dropna_map.
    apply number_of_ext. intros [d|]; reflexivity.
  - intros m c. rewrite in_groupby_size_pos, count_dropna_map.
    rewrite (number_of_ext _ (in_month m)); [reflexivity|].
    intros [d|]; reflexivity.
  - rewrite total_groupby_size, length_dropna_map.
    apply number_of_ext. intros [d|]; reflexivity.
  - split; [reflexivity|].
    intros y c. rewrite in_groupby_size_pos, count_dropna_map.
    rewrite (number_of_ext _ (in_year y)); [reflexivity|].
    intros [d|]; reflexivity.
Qed.

End ActorCountMore.

(** ** More on the height query of [moviedata_final.py] *)

Section HeightQueryOrder.
Import moviedata_final.

Lemma in_filter_weaken {A} (p q : A -> bool) l x :
  (forall y, p y = true -> q y = true) -> In x (List.filter p l) -> In x (List.filter q l).
Proof.
  intros Hpq Hx. apply List.filter_In in Hx. apply List.filter_In.
  destruct Hx; auto.
Qed.

Lemma in_range_widen lo hi lo' hi' r :
  (lo' <= lo)%Q -> (hi <= hi')%Q -> in_range lo hi r = true -> in_range lo' hi' r = true.
Proof.
  intros Hlo Hhi. unfold in_range. destruct (character.Actor_height r) as [h|]; [|auto].
  intros H. apply andb_prop in H. destruct H as [H1 H2].
  apply Qle_bool_iff in H1, H2. apply andb_true_intro.
  split; apply Qle_bool_iff; eapply Qle_trans; eauto.
Qed.

(** X19: widening the bounds never loses a row, and the rows returned for a
    gender are among those returned for "all" with the same bounds. *)
Theorem actor_distributions_monotone self g lo hi lo' hi' :
  (lo' <= lo)%Q ->
  (hi <= hi')%Q ->
  forall row,
    In row (rows_of (snd (actor_distributions self g lo hi))) ->
    In row (rows_of (snd (actor_distributions self g lo' hi')))
    /\ In row (rows_of (snd (actor_distributions self "all" lo hi))).
Proof.
  intros Hlo Hhi row. rewrite !actor_distributions_result, accessor_fails_all.
  destruct (accessor_fails self g); cbn [rows_of]; [intros []|].
  rewrite !List.in_map_iff. intros (r & <- & Hr). split; exists r; (split; [reflexivity|]).
  - apply List.filter_In in Hr. destruct Hr as [Hr Hg].
    apply List.filter_In. split; [|exact Hg].
    eapply in_filter_weaken; [|exact Hr].
    intros y. now apply in_range_widen.
  - eapply in_filter_weaken; [|exact Hr]. reflexivity.
Qed.

Lemma actor_distributions_monotone_witness :
  (100 # 1 <= 160 # 1)%Q /\ (170 # 1 <= 200 # 1)%Q
  /\ In (Some "female", Some (165 # 1))
        (rows_of (snd (actor_distributions sample "all" (160 # 1) (170 # 1))))
  /\ In (Some "female", Some (165 # 1))
        (rows_of (snd (actor_distributions sample "Female" (100 # 1) (200 # 1)))).
Proof.
  assert (H1 : (100 # 1 <= 160 # 1)%Q) by (unfold Qle; cbn; lia).
  assert (H2 : (170 # 1 <= 200 # 1)%Q) by (unfold Qle; cbn; lia).
  split; [exact H1|]. split; [exact H2|].
  assert (Hin : In (Some "female", Some (165 # 1))
                   (rows_of (snd (actor_distributions sample "Female" (160 # 1) (170 # 1))))).
  { vm_compute. auto. }
  destruct (actor_distributions_monotone sample "Female" _ _ _ _ H1 H2 _ Hin) as [Ha Hb].
  split; assumption.
Defined.

Lemma filter_none_in {A} (p : A -> bool) l :
  (forall x, In x l -> p x = false) -> List.filter p l = [].
Proof.
  induction l as [|x l IH]; intros H; [reflexivity|].
  cbn [List.filter]. rewrite (H x (or_introl eq_refl)).
  apply IH. intros y Hy. apply H. now right.
Qed.

Lemma lower_code_not_kept c g :
  pystr.lower g = "m" \/ pystr.lower g = "f" ->
  pd.eq_str (pystr.lower g) (pd.str_lower (normalize_gender c)) = false.
Proof.
  intros Hg. destruct c as [s|]; [|reflexivity].
  rewrite normalize_gender_present.
  destruct (String.eqb (pystr.strip (pystr.lower s)) "m") eqn:Em.
  { destruct Hg as [-> | ->]; reflexivity. }
  destruct (String.eqb (pystr.strip (pystr.lower s)) "f") eqn:Ef.
  { destruct Hg as [-> | ->]; reflexivity. }
  cbn [pd.str_lower option_map pd.eq_str].
  destruct (String.eqb (pystr.lower s) (pystr.lower g)) eqn:E; [|reflexivity].
  apply String.eqb_eq in E. rewrite E in Em, Ef.
  destruct Hg as [Hg|Hg]; rewrite Hg in Em, Ef; discriminate.
Qed.

(** X20: the letter codes the query of [moviedata.py] asks for find nothing
    here: the gender chain has turned every cell that reads "m" or "f" into
    "male" or "female" before the comparison, so for a gender that
    lowercases to "m" or "f" the table returned is empty; on a table with
    rows none of which has a gender the call raises the [AttributeError] of
    [.str.lower()] instead. *)
Theorem actor_distributions_letter_code self g lo hi :
  pystr.lower g = "m" \/ pystr.lower g = "f" ->
  snd (actor_distributions self g lo hi)
  = if match character_rows self with [] => false | _ => true end
       && no_gender_text self
    then Raise (AttributeError "Can only use .str accessor with string values!")
    else Ok [].
Proof.
  intros Hg. rewrite actor_distributions_result.
  assert (Hall : String.eqb (pystr.lower g) "all" = false)
    by (destruct Hg as [-> | ->]; reflexivity).
  unfold accessor_fails. rewrite Hall. cbn [negb andb].
  destruct (_ && no_gender_text self); [reflexivity|]. f_equal.
  rewrite (filter_none_in (fun r => false || gender_is g r)); [reflexivity|].
  intros r Hr. cbn [orb].
  apply List.filter_In in Hr. destruct Hr as [Hr _].
  unfold normalize_gender_column in Hr. apply List.in_map_iff in Hr.
  destruct Hr as (r0 & <- & _).
  unfold gender_is. cbn [set_gender_height character.Actor_Gender].
  now apply lower_code_not_kept.
Qed.

Lemma actor_distributions_letter_code_witness :
  (pystr.lower "M" = "m" \/ pystr.lower "M" = "f")
  /\ snd (actor_distributions sample "M" (100 # 1) (200 # 1)) = Ok []
  /\ snd (actor_distributions sample "all" (100 # 1) (200 # 1)) <> Ok [].
Proof.
  split; [left; reflexivity|]. split.
  - exact (actor_distributions_letter_code sample "M" (100 # 1) (200 # 1)
             (or_introl eq_refl)).
  - vm_compute. discriminate.
Defined.

End HeightQueryOrder.

(** ** The statements of [moviedata.py] after the class *)

Section Script.
Context {L : PyLib}.
Import moviedata_final.

(** X21: [clean_column_values] of [moviedata.py] against [safe_eval] of
    [moviedata_final.py]: it ends with an exception exactly when some
    present cell of the column does not read as a map of texts, the case in
    which [safe_eval] puts the empty text; when it returns, the column is
    the one [safe_eval] gives, except that a missing cell has become the
    empty text instead of staying missing. *)
Theorem script_clean_column_values df column :
  match moviedata_script.clean_column_values df column with
  | Ok df' =>
      df' = List.map (fun r => set_category column
                                 (pd.fillna "" (safe_eval (get_category column r))) r) df
      /\ Forall (fun r => forall s, get_category column r = Some s ->
                                    literal_eval_values s <> None) df
  | Raise _ =>
      Exists (fun r => exists s, get_category column r = Some s
                                 /\ literal_eval_values s = None) df
  end.
Proof.
  induction df as [|r df IH]; cbn [moviedata_script.clean_column_values List.map].
  - split; [reflexivity|constructor].
  - unfold moviedata_script.eval_cell, safe_eval.
    destruct (get_category column r) as [s|] eqn:Er.
    + destruct (literal_eval_values s) as [vs|] eqn:Es.
      * destruct (moviedata_script.clean_column_values df column) as [df'|e];
          cbv beta iota in IH |- *.
        -- destruct IH as [Hdf Hall]. subst df'. split; [reflexivity|].
           constructor; [|exact Hall]. intros s' Hs'. congruence.
        -- now apply Exists_cons_tl.
      * apply Exists_cons_hd. eauto.
    + destruct (moviedata_script.clean_column_values df column) as [df'|e];
        cbv beta iota in IH |- *.
      * destruct IH as [Hdf Hall]. subst df'. split; [reflexivity|].
        constructor; [|exact Hall]. intros s' Hs'. congruence.
      * now apply Exists_cons_tl.
Qed.

Lemma split_single s : no_comma s = true -> pystr.split ", " s = [s].
Proof.
  intros Hs. unfold pystr.split. rewrite <- (append_empty_r s) at 1.
  now rewrite (split_go_plain s "" "" Hs).
Qed.

Lemma tokens_single df :
  single_genres df = true ->
  List.map pystr.strip (pd.split_explode ", " (pd.dropna (List.map movie.Movie_genres df)))
  = pd.dropna (List.map movie.Movie_genres df).
Proof.
  induction df as [|r df IH]; intros Hs; [reflexivity|].
  cbn [single_genres forallb] in Hs. apply andb_prop in Hs. destruct Hs as [Hr Hs].
  cbn [List.map]. destruct (movie.Movie_genres r) as [s|]; cbn [pd.dropna].
  - unfold tidy in Hr. apply andb_prop in Hr. destruct Hr as [Hc Hst].
    apply String.eqb_eq in Hst.
    unfold pd.split_explode. cbn [flat_map]. rewrite (split_single s Hc).
    cbn [List.app List.map]. rewrite Hst. f_equal. now apply IH.
  - now apply IH.
Qed.

(** X22: [movie_type] of [moviedata.py] counts whole genre cells where the one of
    [moviedata_final.py] counts the names in them: on a loaded table whose
    present genre cells each hold one tidy name the two return the same
    table for every integer. *)
Theorem script_movie_type_single_genres df characters n :
  single_genres df = true ->
  let self := {| movie_df := Some df; character_df := characters |} in
  moviedata_script.movie_type self n = movie_type self (PInt n).
Proof.
  intros Hs. cbv zeta. unfold moviedata_script.movie_type, movie_type, genre_value_counts.
  cbn [movie_df]. now rewrite (tokens_single df Hs).
Qed.

End Script.

Lemma script_movie_type_single_genres_witness :
  let df := [movie_row 1 None (Some "Drama"); movie_row 2 None (Some "Comedy");
             movie_row 3 None None; movie_row 4 None (Some "Drama")] in
  single_genres df = true
  /\ moviedata_script.movie_type {| movie_df := Some df; character_df := None |} 1
     = Ok [("Drama", 2)]
  /\ moviedata_final.movie_type {| movie_df := Some df; character_df := None |} (PInt 1)
     = Ok [("Drama", 2)].
Proof.
  cbv zeta. split; [reflexivity|].
  rewrite <- (script_movie_type_single_genres _ None 1) by reflexivity.
  split; vm_compute; reflexivity.
Defined.
